(** * Virtual machine expand / flatten helpers

    A shallow embedding of
    [azurerm/internal/services/compute/virtual_machine.go]: the helpers that
    translate between the configuration mapping handed over by the schema
    engine ([[]interface{}], [map[string]interface{}]) and the request and
    response objects of the compute API.

    - Go's dynamically typed [interface{}] values are the inductive [value];
      a [map[string]interface{}] is a [gmap string value].
    - Nullable pointers of the API objects are [option]s.
    - A type assertion [x.(T)] without the comma-ok form, an index into an
      empty slice and a selection through a nil pointer are run-time panics:
      functions that contain one return an [outcome].
    - The disk lookup [disksClient.Get] is a call to the outside: it is a
      parameter that takes and returns the state of the remote service. *)

From stdpp Require Import gmap strings list fin_maps.
From Stdlib Require Import ZArith Lia.

Local Open Scope Z_scope.
Local Open Scope string_scope.
Local Open Scope list_scope.
Local Set Warnings "-register-all,-clear-no-such-hyp".

(** ** Dynamically typed configuration values *)

Inductive value : Type :=
| VNil                              (* the nil interface value *)
| VString (s : string)              (* string *)
| VBool (b : bool)                  (* bool *)
| VInt (n : Z)                      (* int *)
| VList (l : list value)            (* []interface{} *)
| VMap (m : gmap string value)      (* map[string]interface{} *)
| VSet (elems : list value)         (* *schema.Set, given by what List() returns *)
| VStrings (l : list string)        (* []string *)
| VCreateOption (s : string).       (* compute.DiskCreateOptionTypes *)

(** [m[k]] on a [map[string]interface{}]: the nil interface when [k] is absent. *)
Definition index (m : gmap string value) (k : string) : value :=
  default VNil (m !! k).

(** ** Errors and outcomes *)

(** An [error] value: one built by [fmt.Errorf] from a format and its
    arguments, or one handed back by a collaborator (identifier parser, disk
    client). *)
Inductive error : Type :=
| Errorf (format : string) (args : list string)
| External (msg : string).

Inductive outcome (A : Type) : Type :=
| Ok (a : A)
| Err (e : error)
| Panic.

Arguments Ok {A} a.
Arguments Err {A} e.
Arguments Panic {A}.

(** Sequencing: an error or a panic ends the function. With these instances
    stdpp's [x ← c; k] reads as Go's statement order. *)
#[global] Instance outcome_ret : MRet outcome := fun A a => Ok a.

#[global] Instance outcome_bind : MBind outcome := fun A B k c =>
  match c with
  | Ok a => k a
  | Err e => Err e
  | Panic => Panic
  end.

(** Type assertions [v.(T)]: they panic on any other dynamic type, the nil
    interface included. *)
Definition as_string (v : value) : outcome string :=
  match v with VString s => Ok s | _ => Panic end.

Definition as_bool (v : value) : outcome bool :=
  match v with VBool b => Ok b | _ => Panic end.

Definition as_int (v : value) : outcome Z :=
  match v with VInt n => Ok n | _ => Panic end.

Definition as_list (v : value) : outcome (list value) :=
  match v with VList l => Ok l | _ => Panic end.

Definition as_map (v : value) : outcome (gmap string value) :=
  match v with VMap m => Ok m | _ => Panic end.

Definition as_set (v : value) : outcome (list value) :=
  match v with VSet l => Ok l | _ => Panic end.

(** The comma-ok form [s, ok := v.(T)]: the zero value and [false] instead of
    a panic. *)
Definition string_ok (v : value) : string * bool :=
  match v with VString s => (s, true) | _ => ("", false) end.

Definition int_ok (v : value) : Z * bool :=
  match v with VInt n => (n, true) | _ => (0, false) end.

(** [input[0]] on a slice. *)
Definition first (input : list value) : outcome value :=
  match input with
  | [] => Panic
  | v :: _ => Ok v
  end.

(** The conversion [int32(n)] of an [int]: the low 32 bits, signed. *)
Definition int32 (n : Z) : Z := (n + 2 ^ 31) mod 2 ^ 32 - 2 ^ 31.

(** ** API objects

    The structs of the compute SDK, with the fields this file reads or
    writes. A pointer field is an [option]; a named string type
    ([CachingTypes], [StorageAccountTypes], ...) is a [string]; an [int32] is
    a [Z]. Each struct is a module, so that fields keep their Go names. *)

Module AdditionalCapabilities.
Record t := mk { UltraSSDEnabled : option bool }.
End AdditionalCapabilities.

Module UserAssignedIdentitiesValue.
(* compute.VirtualMachineIdentityUserAssignedIdentitiesValue *)
Record t := mk { PrincipalID : option string; ClientID : option string }.
Definition zero : t := mk None None.
End UserAssignedIdentitiesValue.

Module VirtualMachineIdentity.
Record t := mk {
  PrincipalID : option string;
  TenantID : option string;
  Type_ : string;
  (* map[string]*VirtualMachineIdentityUserAssignedIdentitiesValue; [None]
     is the nil map *)
  UserAssignedIdentities :
    option (gmap string (option UserAssignedIdentitiesValue.t))
}.
End VirtualMachineIdentity.

Module NetworkInterfaceReferenceProperties.
Record t := mk { Primary : option bool }.
End NetworkInterfaceReferenceProperties.

Module NetworkInterfaceReference.
Record t := mk {
  NetworkInterfaceReferenceProperties :
    option NetworkInterfaceReferenceProperties.t;
  ID : option string
}.
End NetworkInterfaceReference.

Module DiskEncryptionSetParameters.
Record t := mk { ID : option string }.
End DiskEncryptionSetParameters.

Module ManagedDiskParameters.
Record t := mk {
  StorageAccountType : string;
  DiskEncryptionSet : option DiskEncryptionSetParameters.t;
  ID : option string
}.
End ManagedDiskParameters.

Module DiffDiskSettings.
Record t := mk { Option : string }.
End DiffDiskSettings.

Module OSDisk.
Record t := mk {
  OsType : string;
  Name : option string;
  Caching : string;
  WriteAcceleratorEnabled : option bool;
  DiffDiskSettings : option DiffDiskSettings.t;
  CreateOption : string;
  DiskSizeGB : option Z;
  ManagedDisk : option ManagedDiskParameters.t
}.
End OSDisk.

Module DataDisk.
Record t := mk {
  Lun : option Z;
  Name : option string;
  Caching : string;
  WriteAcceleratorEnabled : option bool;
  CreateOption : string;
  DiskSizeGB : option Z;
  ManagedDisk : option ManagedDiskParameters.t;
  DiskIOPSReadWrite : option Z;
  DiskMBpsReadWrite : option Z
}.
End DataDisk.

Module DiskSku.
Record t := mk { Name : string }.
End DiskSku.

Module Encryption.
Record t := mk { DiskEncryptionSetID : option string }.
End Encryption.

Module DiskProperties.
Record t := mk { DiskSizeGB : option Z; Encryption : option Encryption.t }.
End DiskProperties.

Module Disk.
(** What [disksClient.Get] hands back. [Response] is the status code of the
    HTTP response it embeds ([None]: no response was received).
    [DiskProperties] is an embedded pointer: the source reaches the size
    both as [disk.DiskProperties.DiskSizeGB] and as [existingDisk.DiskSizeGB],
    and the second selection goes through the pointer. *)
Record t := mk {
  Response : option Z;
  Sku : option DiskSku.t;
  DiskProperties : option DiskProperties.t
}.
End Disk.

Module ManagedDiskId.
(* parse.ManagedDiskId *)
Record t := mk { ResourceGroup : string; Name : string }.
End ManagedDiskId.

(** Constants of the compute SDK. *)
Definition ResourceIdentityTypeNone : string := "None".
Definition ResourceIdentityTypeSystemAssigned : string := "SystemAssigned".
Definition ResourceIdentityTypeUserAssigned : string := "UserAssigned".
Definition ResourceIdentityTypeSystemAssignedUserAssigned : string :=
  "SystemAssigned, UserAssigned".
Definition DiskCreateOptionTypesFromImage : string := "FromImage".
Definition DiskCreateOptionTypesEmpty : string := "Empty".
Definition DiskCreateOptionTypesAttach : string := "Attach".

(** Modelled from the spec: [utils.ResponseWasNotFound] is not in this file;
    the disk-lookup service returns a disk descriptor or a "not found"
    signal, which is the 404 status of the response. *)
Definition ResponseWasNotFound (resp : option Z) : bool :=
  match resp with
  | Some code => bool_decide (code = 404)
  | None => false
  end.

(** ** Capabilities *)

Definition expandVirtualMachineAdditionalCapabilities (input : list value)
  : outcome AdditionalCapabilities.t :=
  if decide (0 < length input)%nat then
    v ← first input;
    raw ← as_map v;
    b ← as_bool (index raw "ultra_ssd_enabled");
    Ok (AdditionalCapabilities.mk (Some b))
  else
    Ok (AdditionalCapabilities.mk None).

Definition flattenVirtualMachineAdditionalCapabilities
    (input : option AdditionalCapabilities.t) : list value :=
  match input with
  | None => []
  | Some input =>
      let ultraSsdEnabled :=
        match AdditionalCapabilities.UltraSSDEnabled input with
        | Some b => b
        | None => false
        end in
      [VMap (list_to_map [("ultra_ssd_enabled", VBool ultraSsdEnabled)])]
  end.

(** ** Identity *)

(** The loop that fills [identityIds]: one (non-nil, empty) value per
    reference, keyed by the reference. *)
Fixpoint identityIds_loop (identityIdsRaw : list value)
    (identityIds : gmap string (option UserAssignedIdentitiesValue.t))
  : outcome (gmap string (option UserAssignedIdentitiesValue.t)) :=
  match identityIdsRaw with
  | [] => Ok identityIds
  | v :: rest =>
      k ← as_string v;
      identityIds_loop rest
        (<[k := Some UserAssignedIdentitiesValue.zero]> identityIds)
  end.

Definition expandVirtualMachineIdentity (input : list value)
  : outcome VirtualMachineIdentity.t :=
  if decide (length input = 0)%nat then
    Ok (VirtualMachineIdentity.mk None None ResourceIdentityTypeNone None)
  else
    v ← first input;
    raw ← as_map v;
    type ← as_string (index raw "type");
    identityIdsRaw ← as_set (index raw "identity_ids");
    identityIds ← identityIds_loop identityIdsRaw ∅;
    if decide (0 < size identityIds)%nat then
      if decide (type ≠ ResourceIdentityTypeUserAssigned
                 ∧ type ≠ ResourceIdentityTypeSystemAssignedUserAssigned)
      then
        Err (Errorf
          "`identity_ids` can only be specified when `type` includes `UserAssigned`"
          [])
      else
        Ok (VirtualMachineIdentity.mk None None type (Some identityIds))
    else
      Ok (VirtualMachineIdentity.mk None None type None).

(** What the loop does to [identityIds] for one reference [k]. *)
Definition add_identity
    (m : gmap string (option UserAssignedIdentitiesValue.t)) (k : string)
  : gmap string (option UserAssignedIdentitiesValue.t) :=
  <[k := Some UserAssignedIdentitiesValue.zero]> m.

(** ** Network interfaces *)

Fixpoint networkInterfaceIDs_loop (i : nat) (input : list value)
    (output : list NetworkInterfaceReference.t)
  : outcome (list NetworkInterfaceReference.t) :=
  match input with
  | [] => Ok output
  | v :: rest =>
      id ← as_string v;
      networkInterfaceIDs_loop (S i) rest
        (output ++ [NetworkInterfaceReference.mk
                      (Some (NetworkInterfaceReferenceProperties.mk
                               (Some (bool_decide (i = 0%nat)))))
                      (Some id)])
  end.

Definition expandVirtualMachineNetworkInterfaceIDs (input : list value)
  : outcome (list NetworkInterfaceReference.t) :=
  networkInterfaceIDs_loop 0 input [].

Fixpoint flattenNetworkInterfaceIDs_loop
    (input : list NetworkInterfaceReference.t) (output : list value)
  : list value :=
  match input with
  | [] => output
  | v :: rest =>
      match NetworkInterfaceReference.ID v with
      | None => flattenNetworkInterfaceIDs_loop rest output
      | Some id => flattenNetworkInterfaceIDs_loop rest (output ++ [VString id])
      end
  end.

Definition flattenVirtualMachineNetworkInterfaceIDs
    (input : option (list NetworkInterfaceReference.t)) : list value :=
  match input with
  | None => []
  | Some input => flattenNetworkInterfaceIDs_loop input []
  end.

(** ** OS disk: expand *)

Definition expandVirtualMachineOSDisk (input : list value) (osType : string)
  : outcome OSDisk.t :=
  v ← first input;
  raw ← as_map v;
  caching ← as_string (index raw "caching");
  storageAccountType ← as_string (index raw "storage_account_type");
  writeAcceleratorEnabled ← as_bool (index raw "write_accelerator_enabled");
  osDiskSize ← as_int (index raw "disk_size_gb");
  let diskSizeGB :=
    if decide (0 < osDiskSize) then Some (int32 osDiskSize) else None in
  diffDiskSettingsRaw ← as_list (index raw "diff_disk_settings");
  diffDiskSettings ←
    (if decide (0 < length diffDiskSettingsRaw)%nat then
       v0 ← first diffDiskSettingsRaw;
       diffDiskRaw ← as_map v0;
       option ← as_string (index diffDiskRaw "option");
       Ok (Some (DiffDiskSettings.mk option))
     else Ok None);
  id ← as_string (index raw "disk_encryption_set_id");
  let diskEncryptionSet :=
    if decide (id ≠ "")
    then Some (DiskEncryptionSetParameters.mk (Some id)) else None in
  name ← as_string (index raw "name");
  let diskName := if decide (name ≠ "") then Some name else None in
  Ok (OSDisk.mk osType diskName caching (Some writeAcceleratorEnabled)
        diffDiskSettings DiskCreateOptionTypesFromImage diskSizeGB
        (Some (ManagedDiskParameters.mk storageAccountType diskEncryptionSet
                 None))).

(** ** Data disks: flatten *)

Definition flattenDataDisk (v : DataDisk.t) : value :=
  let name := default "" (DataDisk.Name v) in
  let lun := default 0 (DataDisk.Lun v) in
  let storageAccountType :=
    match DataDisk.ManagedDisk v with
    | Some md => ManagedDiskParameters.StorageAccountType md
    | None => ""
    end in
  let managedDiskID :=
    match DataDisk.ManagedDisk v with
    | Some md => default "" (ManagedDiskParameters.ID md)
    | None => ""
    end in
  let diskEncryptionSetID :=
    match DataDisk.ManagedDisk v with
    | Some md =>
        match ManagedDiskParameters.DiskEncryptionSet md with
        | Some des => default "" (DiskEncryptionSetParameters.ID des)
        | None => ""
        end
    | None => ""
    end in
  let diskSizeGB := default 0 (DataDisk.DiskSizeGB v) in
  let writeAccelerator := default false (DataDisk.WriteAcceleratorEnabled v) in
  let diskIOPS := default 0 (DataDisk.DiskIOPSReadWrite v) in
  let diskMBPS := default 0 (DataDisk.DiskMBpsReadWrite v) in
  VMap (list_to_map [
    ("name", VString name);
    ("lun", VInt lun);
    ("caching", VString (DataDisk.Caching v));
    ("storage_account_type", VString storageAccountType);
    ("managed_disk_id", VString managedDiskID);
    ("disk_encryption_set_id", VString diskEncryptionSetID);
    ("disk_size_gb", VInt diskSizeGB);
    ("create_option", VCreateOption (DataDisk.CreateOption v));
    ("write_accelerator_enabled", VBool writeAccelerator);
    ("disk_iops_read_write", VInt diskIOPS);
    ("disk_mbps_read_write", VInt diskMBPS)]).

Definition flattenVirtualMachineDataDisks (input : option (list DataDisk.t))
  : list value :=
  match input with
  | None => []
  | Some input => flattenDataDisk <$> input
  end.

(** ** The shape of a configuration element

    The schema engine hands each element over as a mapping that has every
    field of its schema at the declared type ([TypeString], [TypeBool],
    [TypeInt], [TypeList]); these predicates state that shape for the
    fields the expanders assert. *)

Definition is_string (v : value) : bool :=
  match v with VString _ => true | _ => false end.

Definition is_bool (v : value) : bool :=
  match v with VBool _ => true | _ => false end.

Definition is_int (v : value) : bool :=
  match v with VInt _ => true | _ => false end.

(** An element of [virtualMachineOSDiskSchema]. *)
Definition osDiskShape (raw : gmap string value) : bool :=
  is_string (index raw "caching")
  && is_string (index raw "storage_account_type")
  && is_bool (index raw "write_accelerator_enabled")
  && is_int (index raw "disk_size_gb")
  && match index raw "diff_disk_settings" with
     | VList [] => true
     | VList (VMap diffDiskRaw :: _) => is_string (index diffDiskRaw "option")
     | _ => false
     end
  && is_string (index raw "disk_encryption_set_id")
  && is_string (index raw "name").

(** An element of [virtualMachineDataDiskSchema]: the required fields, and
    the write-accelerator flag when the mapping has it. *)
Definition dataDiskShape (disk : gmap string value) : bool :=
  is_int (index disk "lun")
  && is_string (index disk "caching")
  && is_string (index disk "storage_account_type")
  && match disk !! "write_accelerator_enabled" with
     | Some v => is_bool v
     | None => true
     end.

(** An element of [virtualMachineIdentitySchema]: a kind and a set of
    strings. *)
Definition identityShape (raw : gmap string value) : bool :=
  is_string (index raw "type")
  && match index raw "identity_ids" with
     | VSet elems => forallb is_string elems
     | _ => false
     end.

(** ** A sample environment

    Concrete collaborators for the worked examples: a disk service that
    counts the lookups it has served and knows one disk, [data1]; the
    identifiers of three disks; a resource data that answers [GetOk] from a
    mapping; and [range] in the order of the map's own enumeration. *)

Module Sample.

Definition world : Type := nat.

Definition data1_id : string :=
  "/subscriptions/sub/resourceGroups/rg1/providers/Microsoft.Compute/disks/data1".
Definition ephemeral_id : string :=
  "/subscriptions/sub/resourceGroups/rg1/providers/Microsoft.Compute/disks/ephemeral".
Definition broken_id : string :=
  "/subscriptions/sub/resourceGroups/rg1/providers/Microsoft.Compute/disks/broken".

Definition ManagedDiskID (s : string) : ManagedDiskId.t + error :=
  if decide (s = data1_id) then inl (ManagedDiskId.mk "rg1" "data1")
  else if decide (s = ephemeral_id) then inl (ManagedDiskId.mk "rg1" "ephemeral")
  else if decide (s = broken_id) then inl (ManagedDiskId.mk "rg1" "broken")
  else inr (External "not a managed disk id").

(** The disk [data1]: 128 GB, premium storage. *)
Definition data1 : Disk.t :=
  Disk.mk (Some 200) (Some (DiskSku.mk "Premium_LRS"))
    (Some (DiskProperties.mk (Some 128) None)).

Definition Get (w : world) (resourceGroup name : string)
  : Disk.t * option error * world :=
  if decide (name = "data1") then (data1, None, S w)
  else if decide (name = "ephemeral") then
    (Disk.mk (Some 404) None None, Some (External "not found"), S w)
  else
    (Disk.mk (Some 500) None None, Some (External "internal server error"),
     S w).

Definition ResourceData : Type := gmap string value.

Definition GetOk (d : ResourceData) (k : string) : value * bool :=
  match d !! k with
  | Some (VList []) => (VList [], false)
  | Some v => (v, true)
  | None => (VNil, false)
  end.

Definition range_keys
    (m : gmap string (option UserAssignedIdentitiesValue.t)) : list string :=
  (map_to_list m).*1.

(** A data disk entry that creates an empty disk of 32 GB. *)
Definition empty_disk : gmap string value :=
  list_to_map [
    ("lun", VInt 0); ("caching", VString "None"); ("name", VString "scratch");
    ("storage_account_type", VString "Standard_LRS");
    ("disk_encryption_set_id", VString ""); ("disk_size_gb", VInt 32);
    ("managed_disk_id", VString ""); ("write_accelerator_enabled", VBool false);
    ("create_option", VString "")].

(** The data disk that entry expands to. *)
Definition empty_data_disk : DataDisk.t :=
  DataDisk.mk (Some 0) (Some "scratch") "None" (Some false) "Empty"
    (Some 32) (Some (ManagedDiskParameters.mk "Standard_LRS" None None))
    None None.

(** A data disk entry that names the existing disk [id], asking for 64 GB. *)
Definition existing_disk (id : string) : gmap string value :=
  list_to_map [
    ("lun", VInt 1); ("caching", VString "ReadOnly"); ("name", VString "data");
    ("storage_account_type", VString "Premium_LRS");
    ("disk_encryption_set_id", VString ""); ("disk_size_gb", VInt 64);
    ("managed_disk_id", VString id); ("write_accelerator_enabled", VBool false);
    ("create_option", VString "")].

Definition resource (id : string) : ResourceData :=
  list_to_map [
    ("data_disk", VList [VMap empty_disk; VMap (existing_disk id)])].

(** An OS disk as the API returns it, with the identifier [id]. *)
Definition os_disk (id : string) : OSDisk.t :=
  OSDisk.mk "Linux" (Some "osdisk") "ReadWrite" None None "FromImage" None
    (Some (ManagedDiskParameters.mk "Standard_LRS" None (Some id))).

(** An OS disk configuration with all seven fields and no size. *)
Definition os_disk_config : gmap string value :=
  list_to_map [
    ("caching", VString "ReadWrite");
    ("storage_account_type", VString "Premium_LRS");
    ("disk_size_gb", VInt 0);
    ("write_accelerator_enabled", VBool false);
    ("diff_disk_settings",
     VList [VMap (list_to_map [("option", VString "Local")])]);
    ("disk_encryption_set_id", VString "");
    ("name", VString "osdisk")].

Definition identity_config (kind : string) (ids : list string)
  : gmap string value :=
  list_to_map [
    ("type", VString kind); ("identity_ids", VSet (VString <$> ids))].

(** A disk service that answers every lookup with a disk that has no
    properties, and no error. *)
Definition Get_bare (w : world) (resourceGroup name : string)
  : Disk.t * option error * world :=
  (Disk.mk (Some 200) None None, None, S w).

(** An OS disk configuration of 64 GB with an encryption set. *)
Definition os_disk_config_64 : gmap string value :=
  list_to_map [
    ("caching", VString "ReadOnly");
    ("storage_account_type", VString "StandardSSD_LRS");
    ("disk_size_gb", VInt 64);
    ("write_accelerator_enabled", VBool true);
    ("diff_disk_settings", VList []);
    ("disk_encryption_set_id", VString "des1");
    ("name", VString "os64")].

End Sample.

(** ** Collaborators

    What the remaining functions call outside this file:
    - the order in which Go's [range] enumerates the keys of a map, which the
      language leaves open;
    - [parse.ManagedDiskID], the parser of managed-disk identifiers;
    - [disksClient.Get], the network lookup of a disk: it returns a disk and
      an error, and may change the state [world] of the remote service;
    - [schema.ResourceData] and its [GetOk]. *)

Section Collaborators.

Variable range_keys :
  gmap string (option UserAssignedIdentitiesValue.t) -> list string.
Hypothesis range_keys_perm : ∀ m, range_keys m ≡ₚ (map_to_list m).*1.

Variable world : Type.
Variable ManagedDiskID : string -> ManagedDiskId.t + error.
Variable Get : world -> string -> string -> (Disk.t * option error) * world.

Variable ResourceData : Type.
Variable GetOk : ResourceData -> string -> value * bool.

Set Default Proof Using "Type".

(** ** Identity: flatten *)

Definition flattenVirtualMachineIdentity
    (input : option VirtualMachineIdentity.t) : list value :=
  match input with
  | None => []
  | Some input =>
      if decide (VirtualMachineIdentity.Type_ input = ResourceIdentityTypeNone)
      then []
      else
        let identityIds :=
          match VirtualMachineIdentity.UserAssignedIdentities input with
          | Some m => range_keys m
          | None => []
          end in
        let principalId := default "" (VirtualMachineIdentity.PrincipalID input) in
        let tenantId := default "" (VirtualMachineIdentity.TenantID input) in
        [VMap (list_to_map [
           ("type", VString (VirtualMachineIdentity.Type_ input));
           ("identity_ids", VStrings identityIds);
           ("principal_id", VString principalId);
           ("tenant_id", VString tenantId)])]
  end.

(** ** Functions that look a disk up

    A computation that may call the disk client: it runs in a state of the
    remote service and returns an outcome and the next state. *)

Definition remote (A : Type) : Type := world -> outcome A * world.

#[local] Instance remote_ret : MRet remote := fun A a w => (Ok a, w).

#[local] Instance remote_bind : MBind remote := fun A B k c w =>
  match c w with
  | (Ok a, w') => k a w'
  | (Err e, w') => (Err e, w')
  | (Panic, w') => (Panic, w')
  end.

Definition lift {A : Type} (c : outcome A) : remote A := fun w => (c, w).

Definition parseManagedDiskID (id : string) : remote (ManagedDiskId.t + error) :=
  lift (Ok (ManagedDiskID id)).

Definition disksClient_Get (resourceGroup name : string)
  : remote (Disk.t * option error) :=
  fun w => let '(r, w') := Get w resourceGroup name in (Ok r, w').

(** [disk.Encryption]: a field of the embedded [*DiskProperties]. *)
Definition Disk_Encryption (disk : Disk.t) : outcome (option Encryption.t) :=
  match Disk.DiskProperties disk with
  | None => Panic
  | Some props => Ok (DiskProperties.Encryption props)
  end.

(** [existingDisk.DiskSizeGB]: a field of the embedded [*DiskProperties]. *)
Definition Disk_DiskSizeGB (disk : Disk.t) : outcome (option Z) :=
  match Disk.DiskProperties disk with
  | None => Panic
  | Some props => Ok (DiskProperties.DiskSizeGB props)
  end.

(** The block [if input.ManagedDisk != nil { ... }] of
    [flattenVirtualMachineOSDisk]: it starts from the local [diskSizeGb] and
    yields [diskEncryptionSetId], [storageAccountType] and [diskSizeGb]. *)
Definition flattenOSDisk_managedDisk (input : OSDisk.t) (diskSizeGb : Z)
  : remote (string * string * Z) :=
  match OSDisk.ManagedDisk input with
  | None => mret ("", "", diskSizeGb)
  | Some managedDisk =>
      let storageAccountType :=
        ManagedDiskParameters.StorageAccountType managedDisk in
      match ManagedDiskParameters.ID managedDisk with
      | None => mret ("", storageAccountType, diskSizeGb)
      | Some managedDiskId =>
          parsed ← parseManagedDiskID managedDiskId;
          match parsed with
          | inr err => lift (Err err)
          | inl id =>
              '(disk, err) ← disksClient_Get (ManagedDiskId.ResourceGroup id)
                                             (ManagedDiskId.Name id);
              match err with
              | Some e =>
                  (* turns out ephemeral disks aren't returned/available here *)
                  if negb (ResponseWasNotFound (Disk.Response disk))
                  then lift (Err e) else mret ()
              | None => mret ()
              end;;
              if negb (ResponseWasNotFound (Disk.Response disk)) then
                let storageAccountType :=
                  match Disk.Sku disk with
                  | Some sku =>
                      if decide (storageAccountType = "")
                      then DiskSku.Name sku else storageAccountType
                  | None => storageAccountType
                  end in
                let diskSizeGb :=
                  if decide (diskSizeGb = 0) then
                    match Disk.DiskProperties disk with
                    | Some props =>
                        match DiskProperties.DiskSizeGB props with
                        | Some n => n
                        | None => diskSizeGb
                        end
                    | None => diskSizeGb
                    end
                  else diskSizeGb in
                encryption ← lift (Disk_Encryption disk);
                let diskEncryptionSetId :=
                  match encryption with
                  | Some enc => default "" (Encryption.DiskEncryptionSetID enc)
                  | None => ""
                  end in
                mret (diskEncryptionSetId, storageAccountType, diskSizeGb)
              else
                mret ("", storageAccountType, diskSizeGb)
          end
      end
  end.

Definition flattenVirtualMachineOSDisk (input : option OSDisk.t)
  : remote (list value) :=
  match input with
  | None => mret []
  | Some input =>
      let diffDiskSettings :=
        match OSDisk.DiffDiskSettings input with
        | Some settings =>
            [VMap (list_to_map
               [("option", VString (DiffDiskSettings.Option settings))])]
        | None => []
        end in
      let diskSizeGb :=
        match OSDisk.DiskSizeGB input with
        | Some n => if decide (n ≠ 0) then n else 0
        | None => 0
        end in
      let name := default "" (OSDisk.Name input) in
      '(diskEncryptionSetId, storageAccountType, diskSizeGb) ←
        flattenOSDisk_managedDisk input diskSizeGb;
      let writeAcceleratorEnabled :=
        default false (OSDisk.WriteAcceleratorEnabled input) in
      mret [VMap (list_to_map [
        ("caching", VString (OSDisk.Caching input));
        ("disk_size_gb", VInt diskSizeGb);
        ("diff_disk_settings", VList diffDiskSettings);
        ("disk_encryption_set_id", VString diskEncryptionSetId);
        ("name", VString name);
        ("storage_account_type", VString storageAccountType);
        ("write_accelerator_enabled", VBool writeAcceleratorEnabled)])]
  end.

(** When the lookup made for [input] in state [w] supplies no size: no
    lookup is made (no managed disk, or no identifier), or the identifier
    parses and the service answers "not found", or it answers without error
    with a disk that carries no size (no properties at all, or properties
    without a size). *)
Definition lookupSuppliesNoSize (w : world) (input : OSDisk.t) : Prop :=
  match OSDisk.ManagedDisk input with
  | None => True
  | Some managedDisk =>
      match ManagedDiskParameters.ID managedDisk with
      | None => True
      | Some managedDiskId =>
          ∃ id, ManagedDiskID managedDiskId = inl id
            ∧ let '(disk, err, _) :=
                Get w (ManagedDiskId.ResourceGroup id) (ManagedDiskId.Name id) in
              ResponseWasNotFound (Disk.Response disk) = true
              ∨ (err = None
                 ∧ Disk.DiskProperties disk ≫= DiskProperties.DiskSizeGB
                   = None)
      end
  end.

(** ** Data disks: expand *)

(** The block [if managedDiskId, ok := ...; ok && managedDiskId != "" { ... }]
    of the loop body. It starts from the [DiskSizeGB] set from the
    configuration and yields [ManagedDisk.ID], [DiskSizeGB] and
    [CreateOption]. *)
Definition expandDataDisk_managedDisk (disk : gmap string value)
    (name : string) (diskSizeGB : option Z)
  : remote (option string * option Z * string) :=
  let '(managedDiskId, ok) := string_ok (index disk "managed_disk_id") in
  if ok && bool_decide (managedDiskId ≠ "") then
    parsed ← parseManagedDiskID managedDiskId;
    match parsed with
    | inr _ =>
        lift (Err (Errorf
          "failed to parse Managed Disk ID for Data Disk %q" [name]))
    | inl dataDiskId =>
        '(existingDisk, err) ←
          disksClient_Get (ManagedDiskId.ResourceGroup dataDiskId)
                          (ManagedDiskId.Name dataDiskId);
        match err with
        | Some _ =>
            lift (Err (Errorf
              "failed to retrieve Managed Disk information for Data Disk %q (resource group %q)"
              [ManagedDiskId.Name dataDiskId;
               ManagedDiskId.ResourceGroup dataDiskId]))
        | None =>
            existingSize ← lift (Disk_DiskSizeGB existingDisk);
            (* If this is the first pass through create option will be empty
               and the disk id must have been user specified *)
            let '(createOption, ok) := string_ok (index disk "create_option") in
            mret (Some managedDiskId, existingSize,
                  if ok && bool_decide (createOption = "")
                  then DiskCreateOptionTypesAttach
                  else DiskCreateOptionTypesEmpty)
        end
    end
  else
    mret (None, diskSizeGB, DiskCreateOptionTypesEmpty).

(** The body of the loop over [dataDisks]: the data disk of one entry. *)
Definition expandDataDisk (v : value) : remote DataDisk.t :=
  disk ← lift (as_map v);
  lun ← lift (as_int (index disk "lun"));
  caching ← lift (as_string (index disk "caching"));
  storageAccountType ← lift (as_string (index disk "storage_account_type"));
  let '(name, ok) := string_ok (index disk "name") in
  let diskName := if ok then Some name else None in
  let diskSizeGB :=
    let '(diskSizeGb, ok) := int_ok (index disk "disk_size_gb") in
    if ok then Some (int32 diskSizeGb) else None in
  '(managedDiskID, diskSizeGB, createOption) ←
    expandDataDisk_managedDisk disk name diskSizeGB;
  let diskEncryptionSet :=
    let '(diskEncryptionSet, encryptionSetOk) :=
      string_ok (index disk "disk_encryption_set_id") in
    if encryptionSetOk && bool_decide (diskEncryptionSet ≠ "")
    then Some (DiskEncryptionSetParameters.mk (Some diskEncryptionSet))
    else None in
  writeAcceleratorEnabled ←
    lift (match disk !! "write_accelerator_enabled" with
          | Some writeAccelerator => b ← as_bool writeAccelerator; Ok (Some b)
          | None => Ok None
          end);
  mret (DataDisk.mk (Some (int32 lun)) diskName caching
          writeAcceleratorEnabled createOption diskSizeGB
          (Some (ManagedDiskParameters.mk storageAccountType
                   diskEncryptionSet managedDiskID))
          None None).

Fixpoint dataDisks_loop (dataDisks : list value) (result : list DataDisk.t)
  : remote (list DataDisk.t) :=
  match dataDisks with
  | [] => mret result
  | v :: rest =>
      dataDisk ← expandDataDisk v;
      dataDisks_loop rest (result ++ [dataDisk])
  end.

(** [meta] is read for the disk client only, and the context carries the
    read timeout: neither is an argument here. *)
Definition expandVirtualMachineDataDisks (d : ResourceData)
  : remote (list DataDisk.t) :=
  let '(dataDisksRaw, ok) := GetOk d "data_disk" in
  if negb ok then mret []
  else
    dataDisks ← lift (as_list dataDisksRaw);
    dataDisks_loop dataDisks [].

(** ** Proof steps *)

(** [set_solver] reads every hypothesis in scope: the facts about sets of
    references are proved without the collaborators. *)
Ltac sets :=
  clear ManagedDiskID Get GetOk; try clear range_keys_perm;
  try clear range_keys; set_solver.

(** Splitting a shape into the shapes of its fields. *)
Ltac split_shape H :=
  repeat match type of H with
         | (_ && _) = true => apply andb_prop in H as [H ?]
         end.

Ltac typed v :=
  destruct v; try discriminate; simpl.

(** Running a function of the [remote] monad: its binds are unfolded so that
    the answers of the collaborators can be rewritten in. *)
Ltac run_remote :=
  unfold flattenVirtualMachineOSDisk, flattenOSDisk_managedDisk,
    parseManagedDiskID, disksClient_Get, lift, mbind, remote_bind, mret,
    remote_ret; simpl.

Ltac run_expand :=
  unfold expandDataDisk, expandDataDisk_managedDisk, parseManagedDiskID,
    disksClient_Get, Disk_DiskSizeGB, lift, mbind, remote_bind, mret,
    remote_ret; simpl.

(** * Properties *)

(** ** Reading the configuration *)

Lemma index_lookup (m : gmap string value) (k : string) (v : value) :
  m !! k = Some v -> index m k = v.
Proof. unfold index. intros ->. reflexivity. Qed.

(** ** The identity map built from the references *)

Lemma identityIds_loop_strings (ids : list string) m :
  identityIds_loop (VString <$> ids) m = Ok (foldl add_identity m ids).
Proof.
  revert m. induction ids as [|k ids IH]; intros m; simpl; [reflexivity|].
  apply IH.
Qed.

Lemma dom_foldl_add_identity (ids : list string) m :
  dom (foldl add_identity m ids) = list_to_set ids ∪ dom m.
Proof.
  revert m. induction ids as [|k ids IH]; intros m; simpl.
  - sets.
  - rewrite IH. unfold add_identity. rewrite dom_insert_L. sets.
Qed.

Lemma foldl_add_identity_nonempty (k : string) (ids : list string) :
  (0 < size (foldl add_identity ∅ (k :: ids)))%nat.
Proof.
  destruct (decide (size (foldl add_identity ∅ (k :: ids)) = 0%nat))
    as [Hz|Hnz]; [|lia].
  apply map_size_empty_inv in Hz.
  assert (Hk : k ∈ dom (foldl add_identity ∅ (k :: ids))).
  { rewrite dom_foldl_add_identity. sets. }
  rewrite Hz in Hk. sets.
Qed.

(** C1. Identity references are accepted only with a kind that includes
    "UserAssigned": for a configuration whose kind is neither "UserAssigned"
    nor "SystemAssigned, UserAssigned", a non-empty set of references makes
    [expandVirtualMachineIdentity] return the validation error (no identity);
    with an empty set it returns the identity of the declared kind, whatever
    the kind. *)
Theorem expandVirtualMachineIdentity_identity_ids_guard
    (raw : gmap string value) (rest : list value)
    (kind : string) (ids : list string) :
  raw !! "type" = Some (VString kind) ->
  raw !! "identity_ids" = Some (VSet (VString <$> ids)) ->
  (kind ≠ "UserAssigned" -> kind ≠ "SystemAssigned, UserAssigned" ->
   ids ≠ [] ->
   expandVirtualMachineIdentity (VMap raw :: rest)
   = Err (Errorf
       "`identity_ids` can only be specified when `type` includes `UserAssigned`"
       []))
  ∧ (ids = [] ->
     expandVirtualMachineIdentity (VMap raw :: rest)
     = Ok (VirtualMachineIdentity.mk None None kind None)).
Proof.
  intros Htype Hids.
  unfold expandVirtualMachineIdentity. simpl.
  rewrite (index_lookup _ _ _ Htype), (index_lookup _ _ _ Hids). simpl.
  rewrite identityIds_loop_strings. simpl.
  split.
  - intros Hua Hsaua Hne.
    destruct ids as [|k ids]; [congruence|].
    destruct (decide _) as [_|Hsz].
    + destruct (decide _) as [_|Hno]; [reflexivity|].
      exfalso. apply Hno. split; assumption.
    + exfalso. apply Hsz. apply foldl_add_identity_nonempty.
  - intros ->. reflexivity.
Qed.

(** C5. Capabilities round trip: for a one-element capability list whose
    mapping carries the boolean [ultra_ssd_enabled = b], flattening what
    [expandVirtualMachineAdditionalCapabilities] returns gives a one-element
    list whose mapping has [ultra_ssd_enabled = b]. *)
Theorem flatten_expand_AdditionalCapabilities
    (raw : gmap string value) (b : bool) :
  raw !! "ultra_ssd_enabled" = Some (VBool b) ->
  ∃ capabilities,
    expandVirtualMachineAdditionalCapabilities [VMap raw] = Ok capabilities
    ∧ flattenVirtualMachineAdditionalCapabilities (Some capabilities)
      = [VMap (list_to_map [("ultra_ssd_enabled", VBool b)])].
Proof.
  intros Hb. exists (AdditionalCapabilities.mk (Some b)).
  unfold expandVirtualMachineAdditionalCapabilities. simpl.
  rewrite (index_lookup _ _ _ Hb). split; reflexivity.
Qed.

Lemma lookup_foldl_add_identity (ids : list string) m (k : string) :
  foldl add_identity m ids !! k
  = if decide (k ∈ ids) then Some (Some UserAssignedIdentitiesValue.zero)
    else m !! k.
Proof.
  revert m. induction ids as [|i ids IH]; intros m; [reflexivity|].
  - cbn [foldl]. rewrite IH. unfold add_identity.
    destruct (decide (k ∈ ids)) as [Hin|Hnin].
    + rewrite decide_True by (right; exact Hin). reflexivity.
    + destruct (decide (i = k)) as [->|Hne].
      * rewrite decide_True by left. apply lookup_insert_eq.
      * rewrite lookup_insert_ne by exact Hne.
        rewrite decide_False; [reflexivity|].
        intros Hin. apply elem_of_cons in Hin as [->|Hin];
          [apply Hne; reflexivity | apply Hnin; exact Hin].
Qed.

Lemma foldl_add_identity_perm (ids ids' : list string) :
  ids ≡ₚ ids' -> foldl add_identity ∅ ids = foldl add_identity ∅ ids'.
Proof.
  intros Hperm. apply map_eq. intros k.
  rewrite !lookup_foldl_add_identity.
  destruct (decide (k ∈ ids)) as [Hin|Hnin].
  - rewrite decide_True; [reflexivity|]. rewrite <- Hperm. exact Hin.
  - rewrite decide_False; [reflexivity|]. rewrite <- Hperm. exact Hnin.
Qed.

Lemma expandVirtualMachineIdentity_UserAssigned
    (raw : gmap string value) (rest : list value) (ids : list string) :
  raw !! "type" = Some (VString "UserAssigned") ->
  raw !! "identity_ids" = Some (VSet (VString <$> ids)) ->
  expandVirtualMachineIdentity (VMap raw :: rest)
  = Ok (VirtualMachineIdentity.mk None None "UserAssigned"
          (if decide (0 < size (foldl add_identity ∅ ids))%nat
           then Some (foldl add_identity ∅ ids) else None)).
Proof.
  intros Htype Hids.
  unfold expandVirtualMachineIdentity. simpl.
  rewrite (index_lookup _ _ _ Htype), (index_lookup _ _ _ Hids). simpl.
  rewrite identityIds_loop_strings. simpl.
  destruct (decide _); reflexivity.
Qed.

Lemma range_keys_elem_of m (k : string) :
  k ∈ range_keys m <-> k ∈ dom m.
Proof using range_keys_perm.
  rewrite (range_keys_perm m).
  rewrite (dom_alt (D := gset string) m), elem_of_list_to_set. reflexivity.
Qed.

Lemma range_keys_NoDup m : NoDup (range_keys m).
Proof using range_keys_perm. rewrite (range_keys_perm m). apply NoDup_fst_map_to_list. Qed.

(** C6. Identity references round trip: for a "UserAssigned" configuration
    whose set lists the references [ids], flattening what
    [expandVirtualMachineIdentity] returns gives, under [identity_ids], a
    duplicate-free list with exactly the members of [ids] (a permutation of
    [ids], so [N] identifiers, when the [N] references are distinct); and a
    configuration that lists the same references in another order expands to
    the same identity. *)
Theorem flatten_expand_identity_ids
    (raw : gmap string value) (rest : list value) (ids : list string) :
  raw !! "type" = Some (VString "UserAssigned") ->
  raw !! "identity_ids" = Some (VSet (VString <$> ids)) ->
  ∃ identity out,
    expandVirtualMachineIdentity (VMap raw :: rest) = Ok identity
    ∧ flattenVirtualMachineIdentity (Some identity)
      = [VMap (list_to_map [
           ("type", VString "UserAssigned");
           ("identity_ids", VStrings out);
           ("principal_id", VString "");
           ("tenant_id", VString "")])]
    ∧ NoDup out
    ∧ (∀ k, k ∈ out <-> k ∈ ids)
    ∧ (NoDup ids -> out ≡ₚ ids ∧ length out = length ids)
    ∧ (∀ raw' rest' ids',
         ids' ≡ₚ ids ->
         raw' !! "type" = Some (VString "UserAssigned") ->
         raw' !! "identity_ids" = Some (VSet (VString <$> ids')) ->
         expandVirtualMachineIdentity (VMap raw' :: rest') = Ok identity).
Proof using range_keys_perm.
  intros Htype Hids.
  pose proof (expandVirtualMachineIdentity_UserAssigned raw rest ids Htype Hids)
    as Hexp.
  set (m := foldl add_identity ∅ ids) in *.
  set (out := if decide (0 < size m)%nat then range_keys m else []).
  assert (Hmem : ∀ k, k ∈ out <-> k ∈ ids).
  { intros k. subst out. destruct (decide _) as [Hsz|Hsz].
    - rewrite range_keys_elem_of. subst m.
      rewrite dom_foldl_add_identity. sets.
    - destruct ids as [|i ids]; [reflexivity|].
      exfalso. apply Hsz. apply foldl_add_identity_nonempty. }
  assert (Hnd : NoDup out).
  { subst out. destruct (decide _); [apply range_keys_NoDup | constructor]. }
  eexists _, out. split; [exact Hexp|].
  split; [|split; [exact Hnd|split; [exact Hmem|split]]].
  - unfold flattenVirtualMachineIdentity. subst out. simpl.
    destruct (decide (0 < size m)%nat); reflexivity.
  - intros Hndi.
    assert (Hp : out ≡ₚ ids) by (apply NoDup_Permutation; assumption).
    split; [exact Hp | rewrite Hp; reflexivity].
  - intros raw' rest' ids' Hperm Htype' Hids'.
    rewrite (expandVirtualMachineIdentity_UserAssigned raw' rest' ids' Htype' Hids').
    rewrite (foldl_add_identity_perm ids' ids Hperm). reflexivity.
Qed.

(** ** OS disk *)

Lemma expandVirtualMachineOSDisk_shape
    (raw : gmap string value) (rest : list value) (osType : string) :
  osDiskShape raw = true ->
  ∃ disk,
    expandVirtualMachineOSDisk (VMap raw :: rest) osType = Ok disk
    ∧ OSDisk.OsType disk = osType
    ∧ OSDisk.CreateOption disk = "FromImage"
    ∧ ∀ n, index raw "disk_size_gb" = VInt n ->
           OSDisk.DiskSizeGB disk
           = if decide (0 < n) then Some (int32 n) else None.
Proof.
  intros Hs. unfold osDiskShape in Hs. split_shape Hs.
  unfold expandVirtualMachineOSDisk. simpl.
  typed (index raw "caching").
  typed (index raw "storage_account_type").
  typed (index raw "write_accelerator_enabled").
  typed (index raw "disk_size_gb").
  typed (index raw "disk_encryption_set_id").
  typed (index raw "name").
  destruct (index raw "diff_disk_settings") as [| | | |l| | | |];
    try discriminate; simpl.
  destruct l as [|v0 l]; simpl.
  - eexists. split; [reflexivity|]. simpl.
    repeat split. intros n0 [= <-]. reflexivity.
  - destruct v0; try discriminate; simpl.
    typed (index m "option").
    eexists. split; [reflexivity|]. simpl.
    repeat split. intros n0 [= <-]. reflexivity.
Qed.

(** C3. Lookup errors of the OS disk flattener: for an OS disk whose
    managed-disk identifier parses, when the lookup answers "not found"
    [flattenVirtualMachineOSDisk] succeeds with the mapping built from the
    fields of the OS disk itself; when the lookup fails with an error and the
    answer is not "not found", it returns that error (no mapping). *)
Theorem flattenVirtualMachineOSDisk_lookup_errors
    (w w' : world) (input : OSDisk.t) (managedDisk : ManagedDiskParameters.t)
    (managedDiskId : string) (id : ManagedDiskId.t)
    (disk : Disk.t) (err : option error) :
  OSDisk.ManagedDisk input = Some managedDisk ->
  ManagedDiskParameters.ID managedDisk = Some managedDiskId ->
  ManagedDiskID managedDiskId = inl id ->
  Get w (ManagedDiskId.ResourceGroup id) (ManagedDiskId.Name id)
    = (disk, err, w') ->
  (ResponseWasNotFound (Disk.Response disk) = true ->
   flattenVirtualMachineOSDisk (Some input) w
   = (Ok [VMap (list_to_map [
        ("caching", VString (OSDisk.Caching input));
        ("disk_size_gb", VInt (default 0 (OSDisk.DiskSizeGB input)));
        ("diff_disk_settings",
         VList match OSDisk.DiffDiskSettings input with
               | Some settings =>
                   [VMap (list_to_map
                      [("option", VString (DiffDiskSettings.Option settings))])]
               | None => []
               end);
        ("disk_encryption_set_id", VString "");
        ("name", VString (default "" (OSDisk.Name input)));
        ("storage_account_type",
         VString (ManagedDiskParameters.StorageAccountType managedDisk));
        ("write_accelerator_enabled",
         VBool (default false (OSDisk.WriteAcceleratorEnabled input)))])],
      w'))
  ∧ (∀ e, err = Some e ->
       ResponseWasNotFound (Disk.Response disk) = false ->
       flattenVirtualMachineOSDisk (Some input) w = (Err e, w')).
Proof.
  intros Hmd Hid Hparse Hget. split.
  - intros Hnf. run_remote. rewrite Hmd, Hid, Hparse, Hget, Hnf. simpl.
    assert (Hsize :
      match OSDisk.DiskSizeGB input with
      | Some n => if decide (n ≠ 0) then n else 0
      | None => 0
      end = default 0 (OSDisk.DiskSizeGB input)).
    { destruct (OSDisk.DiskSizeGB input) as [n|]; simpl; [|reflexivity].
      destruct (decide (n ≠ 0)) as [|Hz]; [reflexivity|].
      destruct (decide (n = 0)) as [->|]; [reflexivity|contradiction]. }
    rewrite Hsize. destruct err; reflexivity.
  - intros e -> Hnf. run_remote. rewrite Hmd, Hid, Hparse, Hget, Hnf. simpl.
    reflexivity.
Qed.

(** X30. No size: for an OS disk configuration whose [disk_size_gb] is 0,
    [expandVirtualMachineOSDisk] returns a disk whose [DiskSizeGB] is unset
    (nil, not 0). For an OS disk object whose [DiskSizeGB] is nil and whose
    lookup supplies no size, [flattenVirtualMachineOSDisk] returns a mapping
    whose [disk_size_gb] is 0 — when no lookup is made, when the answer is
    "not found", and when the answer has properties without a size — or, in
    the one remaining case of an answer without error (and not "not found")
    that has no properties at all, panics. *)
Theorem OSDisk_no_size :
  (∀ (raw : gmap string value) (rest : list value) (osType : string),
     osDiskShape raw = true ->
     raw !! "disk_size_gb" = Some (VInt 0) ->
     ∃ disk, expandVirtualMachineOSDisk (VMap raw :: rest) osType = Ok disk
             ∧ OSDisk.DiskSizeGB disk = None)
  ∧ (∀ (w : world) (input : OSDisk.t),
       OSDisk.DiskSizeGB input = None ->
       lookupSuppliesNoSize w input ->
       (∃ m w', flattenVirtualMachineOSDisk (Some input) w = (Ok [VMap m], w')
                ∧ m !! "disk_size_gb" = Some (VInt 0))
       ∨ (∃ w' managedDisk managedDiskId id disk,
            OSDisk.ManagedDisk input = Some managedDisk
            ∧ ManagedDiskParameters.ID managedDisk = Some managedDiskId
            ∧ ManagedDiskID managedDiskId = inl id
            ∧ Get w (ManagedDiskId.ResourceGroup id) (ManagedDiskId.Name id)
              = (disk, None, w')
            ∧ ResponseWasNotFound (Disk.Response disk) = false
            ∧ Disk.DiskProperties disk = None
            ∧ flattenVirtualMachineOSDisk (Some input) w = (Panic, w'))).
Proof.
  split.
  - intros raw rest osType Hs Hsize.
    destruct (expandVirtualMachineOSDisk_shape raw rest osType Hs)
      as (disk & Hexp & _ & _ & Hsz).
    exists disk. split; [exact Hexp|].
    rewrite (Hsz 0 (index_lookup _ _ _ Hsize)). reflexivity.
  - intros w input Hnil Hno. unfold lookupSuppliesNoSize in Hno.
    run_remote. rewrite Hnil.
    destruct (OSDisk.ManagedDisk input) as [managedDisk|]; simpl;
      [|left; eexists _, _; split; reflexivity].
    destruct (ManagedDiskParameters.ID managedDisk) as [managedDiskId|]
      eqn:Hid; simpl; [|left; eexists _, _; split; reflexivity].
    destruct Hno as (id & Hparse & Hno). rewrite Hparse.
    destruct (Get w _ _) as [[disk err] w'] eqn:Hget.
    destruct Hno as [Hnf | [-> Hsz]].
    + rewrite Hnf. left.
      destruct err; simpl; eexists _, _; split; reflexivity.
    + simpl. unfold Disk_Encryption.
      destruct (ResponseWasNotFound (Disk.Response disk)) eqn:Hnf; simpl;
        [left; eexists _, _; split; reflexivity|].
      destruct (Disk.DiskProperties disk) as [props|] eqn:Hprops; simpl.
      * simpl in Hsz. rewrite Hsz. left. eexists _, _. split; reflexivity.
      * right. exists w', managedDisk, managedDiskId, id, disk.
        repeat split; try reflexivity; assumption.
Qed.

(** C8 (as amended). The end-to-end example, on the mapping as the schema
    engine completes it: expanding {caching: "ReadWrite",
    storage_account_type: "Premium_LRS", disk_size_gb: 0} together with the
    defaults of the fields left out (write_accelerator_enabled: false,
    diff_disk_settings: [], disk_encryption_set_id: "", name: "") yields an
    object with [DiskSizeGB] unset and [CreateOption] "FromImage"; flattening
    that object makes no lookup (it has no managed-disk identifier) and
    yields the seven-field mapping of the example. *)
Theorem OSDisk_example_completed (osType : string) (w : world) :
  let disk :=
    OSDisk.mk osType None "ReadWrite" (Some false) None "FromImage" None
      (Some (ManagedDiskParameters.mk "Premium_LRS" None None)) in
  expandVirtualMachineOSDisk
    [VMap (list_to_map [
       ("caching", VString "ReadWrite");
       ("storage_account_type", VString "Premium_LRS");
       ("disk_size_gb", VInt 0);
       ("write_accelerator_enabled", VBool false);
       ("diff_disk_settings", VList []);
       ("disk_encryption_set_id", VString "");
       ("name", VString "")])]
    osType
  = Ok disk
  ∧ OSDisk.DiskSizeGB disk = None
  ∧ OSDisk.CreateOption disk = "FromImage"
  ∧ flattenVirtualMachineOSDisk (Some disk) w
    = (Ok [VMap (list_to_map [
         ("caching", VString "ReadWrite");
         ("storage_account_type", VString "Premium_LRS");
         ("disk_size_gb", VInt 0);
         ("name", VString "");
         ("disk_encryption_set_id", VString "");
         ("write_accelerator_enabled", VBool false);
         ("diff_disk_settings", VList [])])],
       w).
Proof. repeat split. Qed.

(** ** Expanders on schema-shaped input *)

Lemma identityIds_loop_shape (elems : list value) m :
  forallb is_string elems = true -> ∃ m', identityIds_loop elems m = Ok m'.
Proof.
  revert m. induction elems as [|v elems IH]; intros m Hs; simpl.
  - eexists. reflexivity.
  - simpl in Hs. apply andb_prop in Hs as [Hv Hs].
    destruct v; try discriminate. simpl. apply IH. exact Hs.
Qed.

Lemma networkInterfaceIDs_loop_strings (ids : list string) (i : nat) output :
  ∃ result,
    networkInterfaceIDs_loop i (VString <$> ids) output = Ok result
    ∧ length result = (length output + length ids)%nat.
Proof.
  revert i output. induction ids as [|id ids IH]; intros i output; simpl.
  - exists output. split; [reflexivity|lia].
  - destruct (IH (S i) (output ++ [NetworkInterfaceReference.mk
        (Some (NetworkInterfaceReferenceProperties.mk
                 (Some (bool_decide (i = 0%nat))))) (Some id)]))
      as (result & Hres & Hlen).
    exists result. split; [exact Hres|].
    rewrite Hlen, length_app. simpl. lia.
Qed.

Lemma flattenNetworkInterfaceIDs_loop_length input output :
  (length (flattenNetworkInterfaceIDs_loop input output)
   <= length output + length input)%nat.
Proof.
  revert output. induction input as [|v input IH]; intros output; simpl.
  - lia.
  - destruct (NetworkInterfaceReference.ID v).
    + specialize (IH (output ++ [VString s])).
      rewrite length_app in IH. simpl in IH. lia.
    + specialize (IH output). lia.
Qed.

(** C4 (as amended). The functions that make no lookup return without a
    panic on input of the shape their schema declares:
    [expandVirtualMachineOSDisk] returns a disk for every list whose first
    element is a mapping with the seven OS disk fields at their declared
    types; [expandVirtualMachineAdditionalCapabilities] returns capabilities
    for the empty list and for a mapping with a boolean flag;
    [expandVirtualMachineIdentity] returns an identity or its validation
    error; [expandVirtualMachineNetworkInterfaceIDs] returns one reference
    per string; the flatteners return a list for every object. *)
Theorem expanders_return_on_shaped_input :
  (∀ raw rest osType,
     osDiskShape raw = true ->
     ∃ disk, expandVirtualMachineOSDisk (VMap raw :: rest) osType = Ok disk)
  ∧ expandVirtualMachineAdditionalCapabilities []
    = Ok (AdditionalCapabilities.mk None)
  ∧ (∀ raw rest,
       is_bool (index raw "ultra_ssd_enabled") = true ->
       ∃ capabilities,
         expandVirtualMachineAdditionalCapabilities (VMap raw :: rest)
         = Ok capabilities)
  ∧ expandVirtualMachineIdentity []
    = Ok (VirtualMachineIdentity.mk None None "None" None)
  ∧ (∀ raw rest,
       identityShape raw = true ->
       (∃ identity,
          expandVirtualMachineIdentity (VMap raw :: rest) = Ok identity)
       ∨ expandVirtualMachineIdentity (VMap raw :: rest)
         = Err (Errorf
             "`identity_ids` can only be specified when `type` includes `UserAssigned`"
             []))
  ∧ (∀ ids : list string,
       ∃ output,
         expandVirtualMachineNetworkInterfaceIDs (VString <$> ids) = Ok output
         ∧ length output = length ids)
  ∧ (∀ input, (length (flattenVirtualMachineAdditionalCapabilities input)
               <= 1)%nat)
  ∧ (∀ input, (length (flattenVirtualMachineIdentity input) <= 1)%nat)
  ∧ (∀ input,
       (length (flattenVirtualMachineNetworkInterfaceIDs (Some input))
        <= length input)%nat)
  ∧ (∀ input,
       length (flattenVirtualMachineDataDisks (Some input)) = length input).
Proof.
  repeat apply conj.
  - intros raw rest osType Hs.
    destruct (expandVirtualMachineOSDisk_shape raw rest osType Hs)
      as (disk & Hexp & _). exists disk. exact Hexp.
  - reflexivity.
  - intros raw rest Hb. unfold expandVirtualMachineAdditionalCapabilities.
    simpl. destruct (index raw "ultra_ssd_enabled"); try discriminate.
    simpl. eexists. reflexivity.
  - reflexivity.
  - intros raw rest Hs. unfold identityShape in Hs.
    apply andb_prop in Hs as [Hty Hids].
    unfold expandVirtualMachineIdentity. simpl.
    destruct (index raw "type"); try discriminate. simpl.
    destruct (index raw "identity_ids"); try discriminate. simpl.
    destruct (identityIds_loop_shape elems ∅ Hids) as [m' ->]. simpl.
    destruct (decide (0 < size m')%nat); [|left; eexists; reflexivity].
    destruct (decide _); [right; reflexivity | left; eexists; reflexivity].
  - intros ids. unfold expandVirtualMachineNetworkInterfaceIDs.
    destruct (networkInterfaceIDs_loop_strings ids 0 []) as (out & H1 & H2).
    exists out. split; [exact H1 | exact H2].
  - intros [input|]; simpl; lia.
  - intros [input|]; simpl; [|lia]. destruct (decide _); simpl; lia.
  - intros input. simpl.
    pose proof (flattenNetworkInterfaceIDs_loop_length input []) as H.
    simpl in H. exact H.
  - intros input. simpl. apply length_fmap.
Qed.

(** ** Data disks *)

Lemma dataDisks_loop_app pre post result w0 result_pre w :
  dataDisks_loop pre result w0 = (Ok result_pre, w) ->
  dataDisks_loop (pre ++ post) result w0 = dataDisks_loop post result_pre w.
Proof.
  revert result w0. induction pre as [|v pre IH]; intros result w0 Hpre.
  - simpl in Hpre. injection Hpre as -> ->. reflexivity.
  - simpl in *. unfold mbind, remote_bind in *.
    destruct (expandDataDisk v w0) as [[dataDisk| |] w1]; try discriminate.
    apply IH. exact Hpre.
Qed.

Lemma dataDisks_loop_extends dataDisks result w0 final wf :
  dataDisks_loop dataDisks result w0 = (Ok final, wf) ->
  ∃ added, final = result ++ added ∧ length added = length dataDisks.
Proof.
  revert result w0. induction dataDisks as [|v rest IH]; intros result w0 H.
  - simpl in H. injection H as <- <-. exists []. split; [|reflexivity].
    symmetry. apply app_nil_r.
  - simpl in H. unfold mbind, remote_bind in H.
    destruct (expandDataDisk v w0) as [[dataDisk| |] w1]; try discriminate.
    destruct (IH _ _ H) as (added & -> & Hlen).
    exists (dataDisk :: added). split; [|simpl; lia].
    rewrite <- app_assoc. reflexivity.
Qed.

(** The run of [expandVirtualMachineDataDisks] up to and including one entry:
    once the entries before it have been expanded, the entry's own outcome
    decides how the function goes on. *)
Lemma expandVirtualMachineDataDisks_entry d w0 pre v post result_pre w :
  GetOk d "data_disk" = (VList (pre ++ v :: post), true) ->
  dataDisks_loop pre [] w0 = (Ok result_pre, w) ->
  expandVirtualMachineDataDisks d w0
  = match expandDataDisk v w with
    | (Ok dataDisk, w') => dataDisks_loop post (result_pre ++ [dataDisk]) w'
    | (Err e, w') => (Err e, w')
    | (Panic, w') => (Panic, w')
    end.
Proof.
  intros Hd Hpre. unfold expandVirtualMachineDataDisks. rewrite Hd. simpl.
  unfold mbind at 1. unfold remote_bind, lift. simpl.
  rewrite (dataDisks_loop_app pre (v :: post) [] w0 result_pre w Hpre).
  reflexivity.
Qed.

Lemma expandVirtualMachineDataDisks_produced
    d w0 pre v post result_pre w dataDisk w' :
  GetOk d "data_disk" = (VList (pre ++ v :: post), true) ->
  dataDisks_loop pre [] w0 = (Ok result_pre, w) ->
  expandDataDisk v w = (Ok dataDisk, w') ->
  (∀ result wf,
     expandVirtualMachineDataDisks d w0 = (Ok result, wf) ->
     result !! length pre = Some dataDisk)
  ∧ (post = [] ->
     expandVirtualMachineDataDisks d w0 = (Ok (result_pre ++ [dataDisk]), w')).
Proof.
  intros Hd Hpre Hbody.
  rewrite (expandVirtualMachineDataDisks_entry d w0 pre v post result_pre w Hd Hpre).
  rewrite Hbody. split.
  - intros result wf Hloop.
    destruct (dataDisks_loop_extends _ _ _ _ _ Hloop) as (added & -> & _).
    destruct (dataDisks_loop_extends _ _ _ _ _ Hpre) as (added' & -> & Hlen).
    simpl. rewrite <- Hlen. rewrite <- app_assoc.
    rewrite lookup_app_r by lia. rewrite Nat.sub_diag. reflexivity.
  - intros ->. reflexivity.
Qed.

(** An entry with a managed-disk identifier that parses, looked up without
    error: the disk the loop body builds. *)
Lemma expandDataDisk_lookup_ok
    (w w' : world) (disk : gmap string value) (id : string)
    (dataDiskId : ManagedDiskId.t) (existingDisk : Disk.t)
    (props : DiskProperties.t) :
  dataDiskShape disk = true ->
  disk !! "managed_disk_id" = Some (VString id) -> id ≠ "" ->
  ManagedDiskID id = inl dataDiskId ->
  Get w (ManagedDiskId.ResourceGroup dataDiskId) (ManagedDiskId.Name dataDiskId)
    = (existingDisk, None, w') ->
  Disk.DiskProperties existingDisk = Some props ->
  ∃ dataDisk managedDisk,
    expandDataDisk (VMap disk) w = (Ok dataDisk, w')
    ∧ DataDisk.ManagedDisk dataDisk = Some managedDisk
    ∧ ManagedDiskParameters.ID managedDisk = Some id
    ∧ DataDisk.DiskSizeGB dataDisk = DiskProperties.DiskSizeGB props
    ∧ DataDisk.Name dataDisk
      = (let '(name, ok) := string_ok (index disk "name") in
         if ok then Some name else None)
    ∧ DataDisk.CreateOption dataDisk
      = (let '(createOption, ok) := string_ok (index disk "create_option") in
         if ok && bool_decide (createOption = "")
         then "Attach" else "Empty").
Proof.
  intros Hs Hid Hne Hparse Hget Hprops.
  unfold dataDiskShape in Hs. split_shape Hs.
  run_expand.
  destruct (index disk "lun"); try discriminate; simpl.
  destruct (index disk "caching"); try discriminate; simpl.
  destruct (index disk "storage_account_type"); try discriminate; simpl.
  rewrite (index_lookup _ _ _ Hid). simpl.
  rewrite bool_decide_true by exact Hne.
  destruct (string_ok (index disk "name")) as [name nameOk]. simpl.
  rewrite Hparse, Hget, Hprops. simpl.
  destruct (string_ok (index disk "create_option")) as [createOption coOk].
  simpl.
  destruct (disk !! "write_accelerator_enabled") as [wa|]; simpl.
  - destruct wa; try discriminate; simpl.
    eexists _, _. repeat split.
  - eexists _, _. repeat split.
Qed.

(** The same entry when the disk looked up has no properties: the body
    stops at [existingDisk.DiskSizeGB]. *)
Lemma expandDataDisk_lookup_nil_properties
    (w w' : world) (disk : gmap string value) (id : string)
    (dataDiskId : ManagedDiskId.t) (existingDisk : Disk.t) :
  dataDiskShape disk = true ->
  disk !! "managed_disk_id" = Some (VString id) -> id ≠ "" ->
  ManagedDiskID id = inl dataDiskId ->
  Get w (ManagedDiskId.ResourceGroup dataDiskId) (ManagedDiskId.Name dataDiskId)
    = (existingDisk, None, w') ->
  Disk.DiskProperties existingDisk = None ->
  expandDataDisk (VMap disk) w = (Panic, w').
Proof.
  intros Hs Hid Hne Hparse Hget Hprops.
  unfold dataDiskShape in Hs. split_shape Hs. run_expand.
  destruct (index disk "lun"); try discriminate; simpl.
  destruct (index disk "caching"); try discriminate; simpl.
  destruct (index disk "storage_account_type"); try discriminate; simpl.
  rewrite (index_lookup _ _ _ Hid). simpl.
  rewrite bool_decide_true by exact Hne.
  destruct (string_ok (index disk "name")) as [name nameOk]. simpl.
  rewrite Hparse, Hget, Hprops. reflexivity.
Qed.

(** C2. Attaching an existing disk: for a data disk entry with a
    [managed_disk_id], a non-empty [name] and an empty [create_option], when
    the identifier parses and the lookup succeeds (returns no error), the
    data disk that [expandVirtualMachineDataDisks] produces for the entry —
    the one at the entry's index of every list it returns — has
    [CreateOption] "Attach" (not "Empty") and [ManagedDisk.ID] equal to the
    identifier supplied. The entry may stand anywhere in the list; the lookup
    is made in the state the entries before it leave. The disk is built when
    the disk looked up carries its properties; when it carries none, the
    function panics and produces no list. *)
Theorem expandVirtualMachineDataDisks_attach
    (d : ResourceData) (w0 w w' : world) (pre post : list value)
    (result_pre : list DataDisk.t) (disk : gmap string value)
    (name id : string) (dataDiskId : ManagedDiskId.t) (existingDisk : Disk.t) :
  GetOk d "data_disk" = (VList (pre ++ VMap disk :: post), true) ->
  dataDisks_loop pre [] w0 = (Ok result_pre, w) ->
  dataDiskShape disk = true ->
  disk !! "managed_disk_id" = Some (VString id) -> id ≠ "" ->
  disk !! "name" = Some (VString name) -> name ≠ "" ->
  disk !! "create_option" = Some (VString "") ->
  ManagedDiskID id = inl dataDiskId ->
  Get w (ManagedDiskId.ResourceGroup dataDiskId) (ManagedDiskId.Name dataDiskId)
    = (existingDisk, None, w') ->
  (∀ result wf,
     expandVirtualMachineDataDisks d w0 = (Ok result, wf) ->
     ∃ dataDisk managedDisk,
       result !! length pre = Some dataDisk
       ∧ expandDataDisk (VMap disk) w = (Ok dataDisk, w')
       ∧ DataDisk.Name dataDisk = Some name
       ∧ DataDisk.CreateOption dataDisk = "Attach"
       ∧ DataDisk.CreateOption dataDisk ≠ "Empty"
       ∧ DataDisk.ManagedDisk dataDisk = Some managedDisk
       ∧ ManagedDiskParameters.ID managedDisk = Some id)
  ∧ match Disk.DiskProperties existingDisk with
    | Some _ =>
        ∃ dataDisk managedDisk,
          expandDataDisk (VMap disk) w = (Ok dataDisk, w')
          ∧ DataDisk.CreateOption dataDisk = "Attach"
          ∧ DataDisk.ManagedDisk dataDisk = Some managedDisk
          ∧ ManagedDiskParameters.ID managedDisk = Some id
          ∧ (post = [] ->
             expandVirtualMachineDataDisks d w0
             = (Ok (result_pre ++ [dataDisk]), w'))
    | None => expandVirtualMachineDataDisks d w0 = (Panic, w')
    end.
Proof.
  intros Hd Hpre Hs Hid Hne Hname _ Hco Hparse Hget.
  destruct (Disk.DiskProperties existingDisk) as [props|] eqn:Hprops.
  - destruct (expandDataDisk_lookup_ok w w' disk id dataDiskId existingDisk
                props Hs Hid Hne Hparse Hget Hprops)
      as (dataDisk & managedDisk & Hbody & Hmd & Hmid & _ & Hn & Hopt).
    rewrite (index_lookup _ _ _ Hname) in Hn.
    rewrite (index_lookup _ _ _ Hco) in Hopt. simpl in Hn, Hopt.
    destruct (expandVirtualMachineDataDisks_produced d w0 pre (VMap disk) post
                result_pre w dataDisk w' Hd Hpre Hbody) as [Hat Hlast].
    split.
    + intros result wf Hres. exists dataDisk, managedDisk.
      split; [exact (Hat result wf Hres)|].
      repeat split; try assumption. rewrite Hopt. discriminate.
    + exists dataDisk, managedDisk. repeat split; assumption.
  - rewrite (expandVirtualMachineDataDisks_entry d w0 pre (VMap disk) post
               result_pre w Hd Hpre).
    rewrite (expandDataDisk_lookup_nil_properties w w' disk id dataDiskId
               existingDisk Hs Hid Hne Hparse Hget Hprops).
    split; [intros result wf Hres; discriminate Hres | reflexivity].
Qed.

(** C9. A failed lookup: for a data disk entry with a [managed_disk_id] that
    parses, when the lookup returns an error (whatever the error),
    [expandVirtualMachineDataDisks] returns an error, built from the name and
    the resource group of the disk the identifier names, and no disk list. *)
Theorem expandVirtualMachineDataDisks_lookup_failure
    (d : ResourceData) (w0 w w' : world) (pre post : list value)
    (result_pre : list DataDisk.t) (disk : gmap string value)
    (id : string) (dataDiskId : ManagedDiskId.t) (existingDisk : Disk.t)
    (e : error) :
  GetOk d "data_disk" = (VList (pre ++ VMap disk :: post), true) ->
  dataDisks_loop pre [] w0 = (Ok result_pre, w) ->
  dataDiskShape disk = true ->
  disk !! "managed_disk_id" = Some (VString id) -> id ≠ "" ->
  ManagedDiskID id = inl dataDiskId ->
  Get w (ManagedDiskId.ResourceGroup dataDiskId) (ManagedDiskId.Name dataDiskId)
    = (existingDisk, Some e, w') ->
  expandVirtualMachineDataDisks d w0
  = (Err (Errorf
       "failed to retrieve Managed Disk information for Data Disk %q (resource group %q)"
       [ManagedDiskId.Name dataDiskId; ManagedDiskId.ResourceGroup dataDiskId]),
     w')
  ∧ ∀ result wf, expandVirtualMachineDataDisks d w0 ≠ (Ok result, wf).
Proof.
  intros Hd Hpre Hs Hid Hne Hparse Hget.
  assert (Hbody : expandDataDisk (VMap disk) w
    = (Err (Errorf
         "failed to retrieve Managed Disk information for Data Disk %q (resource group %q)"
         [ManagedDiskId.Name dataDiskId;
          ManagedDiskId.ResourceGroup dataDiskId]), w')).
  { unfold dataDiskShape in Hs. split_shape Hs. run_expand.
    destruct (index disk "lun"); try discriminate; simpl.
    destruct (index disk "caching"); try discriminate; simpl.
    destruct (index disk "storage_account_type"); try discriminate; simpl.
    rewrite (index_lookup _ _ _ Hid). simpl.
    rewrite bool_decide_true by exact Hne.
    destruct (string_ok (index disk "name")) as [name nameOk]. simpl.
    rewrite Hparse, Hget. reflexivity. }
  rewrite (expandVirtualMachineDataDisks_entry d w0 pre (VMap disk) post
             result_pre w Hd Hpre), Hbody.
  split; [reflexivity | discriminate].
Qed.

(** C10. The size comes from the lookup: for a data disk entry with both a
    [disk_size_gb] and a [managed_disk_id], when the identifier parses and
    the lookup succeeds (returns no error), the data disk that
    [expandVirtualMachineDataDisks] produces for the entry — the one at the
    entry's index of every list it returns — carries the size of the disk
    the lookup returned, whatever size the configuration gave. The disk is
    built when the disk looked up carries its properties; when it carries
    none, the function panics and produces no list. *)
Theorem expandVirtualMachineDataDisks_lookup_size
    (d : ResourceData) (w0 w w' : world) (pre post : list value)
    (result_pre : list DataDisk.t) (disk : gmap string value)
    (size : Z) (id : string) (dataDiskId : ManagedDiskId.t)
    (existingDisk : Disk.t) :
  GetOk d "data_disk" = (VList (pre ++ VMap disk :: post), true) ->
  dataDisks_loop pre [] w0 = (Ok result_pre, w) ->
  dataDiskShape disk = true ->
  disk !! "disk_size_gb" = Some (VInt size) ->
  disk !! "managed_disk_id" = Some (VString id) -> id ≠ "" ->
  ManagedDiskID id = inl dataDiskId ->
  Get w (ManagedDiskId.ResourceGroup dataDiskId) (ManagedDiskId.Name dataDiskId)
    = (existingDisk, None, w') ->
  (∀ result wf,
     expandVirtualMachineDataDisks d w0 = (Ok result, wf) ->
     ∃ dataDisk props,
       result !! length pre = Some dataDisk
       ∧ expandDataDisk (VMap disk) w = (Ok dataDisk, w')
       ∧ Disk.DiskProperties existingDisk = Some props
       ∧ DataDisk.DiskSizeGB dataDisk = DiskProperties.DiskSizeGB props)
  ∧ match Disk.DiskProperties existingDisk with
    | Some props =>
        ∃ dataDisk,
          expandDataDisk (VMap disk) w = (Ok dataDisk, w')
          ∧ DataDisk.DiskSizeGB dataDisk = DiskProperties.DiskSizeGB props
          ∧ (post = [] ->
             expandVirtualMachineDataDisks d w0
             = (Ok (result_pre ++ [dataDisk]), w'))
    | None => expandVirtualMachineDataDisks d w0 = (Panic, w')
    end.
Proof.
  intros Hd Hpre Hs _ Hid Hne Hparse Hget.
  destruct (Disk.DiskProperties existingDisk) as [props|] eqn:Hprops.
  - destruct (expandDataDisk_lookup_ok w w' disk id dataDiskId existingDisk
                props Hs Hid Hne Hparse Hget Hprops)
      as (dataDisk & managedDisk & Hbody & _ & _ & Hsize & _).
    destruct (expandVirtualMachineDataDisks_produced d w0 pre (VMap disk) post
                result_pre w dataDisk w' Hd Hpre Hbody) as [Hat Hlast].
    split.
    + intros result wf Hres. exists dataDisk, props.
      split; [exact (Hat result wf Hres)|].
      split; [exact Hbody|]. split; [reflexivity | exact Hsize].
    + exists dataDisk. repeat split; assumption.
  - rewrite (expandVirtualMachineDataDisks_entry d w0 pre (VMap disk) post
               result_pre w Hd Hpre).
    rewrite (expandDataDisk_lookup_nil_properties w w' disk id dataDiskId
               existingDisk Hs Hid Hne Hparse Hget Hprops).
    split; [intros result wf Hres; discriminate Hres | reflexivity].
Qed.

(** ** Lookups that return no properties

    [DiskProperties] is an embedded pointer of the disk the client returns:
    when a lookup succeeds with a disk that has none, selecting a field
    through it stops both functions. The theorems above are stated for
    lookups whose disk carries its properties. *)

(** X28. For a data disk entry whose identifier parses, a lookup that
    answers without error with a disk that has no properties makes the loop
    body panic: [existingDisk.DiskSizeGB] is selected through the nil
    [DiskProperties]. *)
Remark expandDataDisk_no_properties
    (w w' : world) (disk : gmap string value) (id : string)
    (dataDiskId : ManagedDiskId.t) (existingDisk : Disk.t) :
  dataDiskShape disk = true ->
  disk !! "managed_disk_id" = Some (VString id) -> id ≠ "" ->
  ManagedDiskID id = inl dataDiskId ->
  Get w (ManagedDiskId.ResourceGroup dataDiskId) (ManagedDiskId.Name dataDiskId)
    = (existingDisk, None, w') ->
  Disk.DiskProperties existingDisk = None ->
  expandDataDisk (VMap disk) w = (Panic, w').
Proof.
  intros Hs Hid Hne Hparse Hget Hprops.
  unfold dataDiskShape in Hs. split_shape Hs. run_expand.
  destruct (index disk "lun"); try discriminate; simpl.
  destruct (index disk "caching"); try discriminate; simpl.
  destruct (index disk "storage_account_type"); try discriminate; simpl.
  rewrite (index_lookup _ _ _ Hid). simpl.
  rewrite bool_decide_true by exact Hne.
  destruct (string_ok (index disk "name")) as [name nameOk]. simpl.
  rewrite Hparse, Hget, Hprops. reflexivity.
Qed.

(** X29. For an OS disk whose identifier parses, a lookup that answers
    without error (and not "not found") with a disk that has no properties
    makes [flattenVirtualMachineOSDisk] panic: [disk.Encryption] is selected
    through the nil [DiskProperties], although the size just before is read
    under a nil check. *)
Remark flattenVirtualMachineOSDisk_no_properties
    (w w' : world) (input : OSDisk.t) (managedDisk : ManagedDiskParameters.t)
    (managedDiskId : string) (id : ManagedDiskId.t) (disk : Disk.t) :
  OSDisk.ManagedDisk input = Some managedDisk ->
  ManagedDiskParameters.ID managedDisk = Some managedDiskId ->
  ManagedDiskID managedDiskId = inl id ->
  Get w (ManagedDiskId.ResourceGroup id) (ManagedDiskId.Name id)
    = (disk, None, w') ->
  ResponseWasNotFound (Disk.Response disk) = false ->
  Disk.DiskProperties disk = None ->
  flattenVirtualMachineOSDisk (Some input) w = (Panic, w').
Proof.
  intros Hmd Hid Hparse Hget Hnf Hprops. run_remote.
  rewrite Hmd, Hid, Hparse, Hget, Hnf. simpl.
  unfold Disk_Encryption. rewrite Hprops. reflexivity.
Qed.

(** * Further properties of the code *)

(** ** Network interfaces *)

Lemma networkInterfaceIDs_loop_imap (ids : list string) (i : nat) output :
  networkInterfaceIDs_loop i (VString <$> ids) output
  = Ok (output ++ imap (fun j id =>
          NetworkInterfaceReference.mk
            (Some (NetworkInterfaceReferenceProperties.mk
                     (Some (bool_decide ((i + j)%nat = 0%nat)))))
            (Some id)) ids).
Proof.
  revert i output. induction ids as [|id ids IH]; intros i output; simpl.
  - rewrite app_nil_r. reflexivity.
  - rewrite IH, <- app_assoc. simpl. rewrite Nat.add_0_r.
    do 3 f_equal. apply imap_ext. intros j x _. simpl.
    repeat (rewrite bool_decide_false by lia). reflexivity.
Qed.

Lemma flattenNetworkInterfaceIDs_loop_omap input output :
  flattenNetworkInterfaceIDs_loop input output
  = output ++ (VString <$> omap NetworkInterfaceReference.ID input).
Proof.
  revert output. induction input as [|v input IH]; intros output; simpl.
  - rewrite app_nil_r. reflexivity.
  - destruct (NetworkInterfaceReference.ID v) as [id|]; rewrite IH.
    + rewrite <- app_assoc. reflexivity.
    + reflexivity.
Qed.

Lemma networkInterfaceIDs_loop_not_strings input (i : nat) output :
  forallb is_string input = false ->
  networkInterfaceIDs_loop i input output = Panic.
Proof.
  revert i output. induction input as [|v input IH]; intros i output Hs.
  - discriminate Hs.
  - simpl in Hs. destruct v; try reflexivity. simpl in *. apply IH. exact Hs.
Qed.

Lemma strings_of_values (input : list value) :
  forallb is_string input = true -> ∃ ids, input = VString <$> ids.
Proof.
  induction input as [|v input IH]; intros Hs.
  - exists []. reflexivity.
  - simpl in Hs. apply andb_prop in Hs as [Hv Hs].
    destruct v; try discriminate Hv.
    destruct (IH Hs) as [ids ->]. exists (s :: ids). reflexivity.
Qed.

Lemma omap_ID_imap (f : nat -> string -> NetworkInterfaceReference.t) ids :
  (∀ j id, NetworkInterfaceReference.ID (f j id) = Some id) ->
  omap NetworkInterfaceReference.ID (imap f ids) = ids.
Proof.
  revert f. induction ids as [|id ids IH]; intros f Hf; [reflexivity|].
  rewrite imap_cons. simpl. rewrite Hf. f_equal.
  apply IH. intros j x. apply Hf.
Qed.

(** X1. Primary interface: for a list of identifiers,
    [expandVirtualMachineNetworkInterfaceIDs] returns one reference per
    identifier, in order, each with its identifier, and marks the reference
    at index 0 as primary and every other one as not primary. *)
Theorem expandVirtualMachineNetworkInterfaceIDs_primary (ids : list string) :
  ∃ output,
    expandVirtualMachineNetworkInterfaceIDs (VString <$> ids) = Ok output
    ∧ length output = length ids
    ∧ ∀ i ref, output !! i = Some ref ->
        NetworkInterfaceReference.ID ref = ids !! i
        ∧ NetworkInterfaceReference.NetworkInterfaceReferenceProperties ref
          = Some (NetworkInterfaceReferenceProperties.mk
                    (Some (bool_decide (i = 0%nat)))).
Proof.
  unfold expandVirtualMachineNetworkInterfaceIDs.
  rewrite networkInterfaceIDs_loop_imap. simpl.
  eexists. split; [reflexivity|]. split; [apply length_imap|].
  intros i ref Href. rewrite list_lookup_imap in Href.
  destruct (ids !! i) as [id|]; [|discriminate Href].
  injection Href as <-. split; reflexivity.
Qed.

(** X2. Network interfaces round trip: flattening the references that
    [expandVirtualMachineNetworkInterfaceIDs] returns for a list of
    identifiers gives the same identifiers in the same order. *)
Theorem flatten_expand_NetworkInterfaceIDs (ids : list string) :
  ∃ output,
    expandVirtualMachineNetworkInterfaceIDs (VString <$> ids) = Ok output
    ∧ flattenVirtualMachineNetworkInterfaceIDs (Some output)
      = VString <$> ids.
Proof.
  unfold expandVirtualMachineNetworkInterfaceIDs.
  rewrite networkInterfaceIDs_loop_imap. simpl.
  eexists. split; [reflexivity|].
  rewrite flattenNetworkInterfaceIDs_loop_omap. simpl. f_equal.
  apply omap_ID_imap. reflexivity.
Qed.

(** X3. Flattening network interfaces drops the references without an
    identifier and keeps the others in order: the result is the list of the
    identifiers present; a nil list flattens to the empty list. *)
Theorem flattenVirtualMachineNetworkInterfaceIDs_present :
  flattenVirtualMachineNetworkInterfaceIDs None = []
  ∧ ∀ input,
      flattenVirtualMachineNetworkInterfaceIDs (Some input)
      = VString <$> omap NetworkInterfaceReference.ID input.
Proof.
  split; [reflexivity|]. intros input. simpl.
  rewrite flattenNetworkInterfaceIDs_loop_omap. reflexivity.
Qed.

(** X4. [expandVirtualMachineNetworkInterfaceIDs] never returns an error:
    it panics exactly when some element of the list is not a string (its
    type assertion has no comma-ok form), and returns a list otherwise. *)
Theorem expandVirtualMachineNetworkInterfaceIDs_panics (input : list value) :
  (∀ e, expandVirtualMachineNetworkInterfaceIDs input ≠ Err e)
  ∧ (expandVirtualMachineNetworkInterfaceIDs input = Panic
     <-> forallb is_string input = false).
Proof.
  unfold expandVirtualMachineNetworkInterfaceIDs.
  destruct (forallb is_string input) eqn:Hs.
  - destruct (strings_of_values input Hs) as [ids ->].
    rewrite networkInterfaceIDs_loop_imap.
    split; [discriminate | split; discriminate].
  - rewrite (networkInterfaceIDs_loop_not_strings input 0 [] Hs).
    split; [discriminate | split; reflexivity].
Qed.

(** ** Capabilities *)

(** X5. Whenever [expandVirtualMachineAdditionalCapabilities] returns,
    flattening its result gives exactly one block: its flag is the
    configured one, and [false] when no block was configured (an absent
    block flattens to a block, not to the empty list). *)
Theorem flatten_expand_AdditionalCapabilities_any
    (input : list value) (capabilities : AdditionalCapabilities.t) :
  expandVirtualMachineAdditionalCapabilities input = Ok capabilities ->
  ∃ b,
    flattenVirtualMachineAdditionalCapabilities (Some capabilities)
    = [VMap (list_to_map [("ultra_ssd_enabled", VBool b)])]
    ∧ (input = [] -> b = false)
    ∧ (∀ v rest, input = v :: rest ->
         ∃ raw, v = VMap raw ∧ raw !! "ultra_ssd_enabled" = Some (VBool b)).
Proof.
  intros Hexp. unfold expandVirtualMachineAdditionalCapabilities in Hexp.
  destruct input as [|v rest]; simpl in Hexp.
  - injection Hexp as <-. exists false.
    split; [reflexivity|]. split; [reflexivity|]. discriminate.
  - destruct v as [| | | | |raw| | |]; try discriminate Hexp. simpl in Hexp.
    unfold index in Hexp.
    destruct (raw !! "ultra_ssd_enabled") as [flag|] eqn:Hflag;
      [|discriminate Hexp].
    destruct flag; try discriminate Hexp. simpl in Hexp.
    injection Hexp as <-. exists b.
    split; [reflexivity|]. split; [discriminate|].
    intros v' rest' [= <- <-]. exists raw. split; [reflexivity|exact Hflag].
Qed.

(** X6. [expandVirtualMachineAdditionalCapabilities] never returns an
    error; it panics exactly when a first element is present that is not a
    mapping with a boolean under [ultra_ssd_enabled] (a missing key
    included). Elements after the first are not read. *)
Theorem expandVirtualMachineAdditionalCapabilities_panics
    (input : list value) :
  (∀ e, expandVirtualMachineAdditionalCapabilities input ≠ Err e)
  ∧ (expandVirtualMachineAdditionalCapabilities input = Panic
     <-> ∃ v rest, input = v :: rest
           ∧ ∀ raw b, ¬ (v = VMap raw
                         ∧ raw !! "ultra_ssd_enabled" = Some (VBool b)))
  ∧ (∀ v rest,
       input = v :: rest ->
       expandVirtualMachineAdditionalCapabilities input
       = expandVirtualMachineAdditionalCapabilities [v]).
Proof.
  split; [|split].
  - intros e. unfold expandVirtualMachineAdditionalCapabilities.
    destruct input as [|v rest]; simpl; [discriminate|].
    destruct v; simpl; try discriminate.
    destruct (index m "ultra_ssd_enabled"); simpl; discriminate.
  - split.
    + intros Hp. destruct input as [|v rest]; [discriminate Hp|].
      exists v, rest. split; [reflexivity|]. intros raw b [-> Hb].
      unfold expandVirtualMachineAdditionalCapabilities in Hp. simpl in Hp.
      rewrite (index_lookup _ _ _ Hb) in Hp. discriminate Hp.
    + intros (v & rest & -> & Hno).
      unfold expandVirtualMachineAdditionalCapabilities. simpl.
      destruct v; try reflexivity. simpl. unfold index.
      destruct (m !! "ultra_ssd_enabled") as [flag|] eqn:Hflag;
        [|reflexivity].
      destruct flag; try reflexivity. exfalso.
      apply (Hno m b). split; [reflexivity | exact Hflag].
  - intros v rest ->. reflexivity.
Qed.

(** ** Identity *)

Lemma identityIds_loop_not_strings (elems : list value) m :
  forallb is_string elems = false -> identityIds_loop elems m = Panic.
Proof.
  revert m. induction elems as [|v elems IH]; intros m Hs.
  - discriminate Hs.
  - simpl in Hs. destruct v; try reflexivity. simpl in *. apply IH. exact Hs.
Qed.

(** X7. With a kind that includes "UserAssigned" and a non-empty set of
    references, [expandVirtualMachineIdentity] returns an identity of that
    kind whose map has one entry per distinct reference, each with a non-nil
    empty value, and no other entry. *)
Theorem expandVirtualMachineIdentity_user_assigned
    (raw : gmap string value) (rest : list value)
    (kind : string) (ids : list string) :
  raw !! "type" = Some (VString kind) ->
  raw !! "identity_ids" = Some (VSet (VString <$> ids)) ->
  kind = "UserAssigned" ∨ kind = "SystemAssigned, UserAssigned" ->
  ids ≠ [] ->
  ∃ m,
    expandVirtualMachineIdentity (VMap raw :: rest)
    = Ok (VirtualMachineIdentity.mk None None kind (Some m))
    ∧ ∀ k, m !! k = if decide (k ∈ ids)
                    then Some (Some UserAssignedIdentitiesValue.zero)
                    else None.
Proof.
  intros Htype Hids Hkind Hne.
  exists (foldl add_identity ∅ ids). split.
  - unfold expandVirtualMachineIdentity. simpl.
    rewrite (index_lookup _ _ _ Htype), (index_lookup _ _ _ Hids). simpl.
    rewrite identityIds_loop_strings. simpl.
    destruct ids as [|i ids]; [congruence|].
    rewrite decide_True by apply foldl_add_identity_nonempty.
    rewrite decide_False; [reflexivity|].
    intros [Hua Hsaua]. destruct Hkind; contradiction.
  - intros k. rewrite lookup_foldl_add_identity.
    destruct (decide (k ∈ ids)); [reflexivity | apply lookup_empty].
Qed.

(** X8. [flattenVirtualMachineIdentity] returns the empty list exactly for
    a nil identity and for one of kind "None"; for any other identity it
    returns one mapping, with the four identity fields and the kind under
    [type]. *)
Theorem flattenVirtualMachineIdentity_none
    (input : option VirtualMachineIdentity.t) :
  (flattenVirtualMachineIdentity input = []
   <-> input = None
       ∨ ∃ identity, input = Some identity
           ∧ VirtualMachineIdentity.Type_ identity = "None")
  ∧ (∀ identity,
       input = Some identity ->
       VirtualMachineIdentity.Type_ identity ≠ "None" ->
       ∃ m, flattenVirtualMachineIdentity input = [VMap m]
            ∧ m !! "type"
              = Some (VString (VirtualMachineIdentity.Type_ identity))
            ∧ ∀ k, is_Some (m !! k)
                   <-> k ∈ ["type"; "identity_ids"; "principal_id";
                            "tenant_id"]).
Proof.
  unfold flattenVirtualMachineIdentity. split.
  - destruct input as [identity|]; [|split; [left; reflexivity|reflexivity]].
    unfold ResourceIdentityTypeNone.
    destruct (decide (VirtualMachineIdentity.Type_ identity = "None"))
      as [Hnone|Hkind].
    + split; [|reflexivity]. intros _. right. exists identity.
      split; [reflexivity|exact Hnone].
    + split; [discriminate|].
      intros [Hnil|(identity' & [= <-] & Hnone)]; [discriminate|contradiction].
  - intros identity -> Hkind. unfold ResourceIdentityTypeNone.
    rewrite decide_False by exact Hkind.
    eexists. split; [reflexivity|]. split; [reflexivity|].
    intros k. rewrite <- elem_of_dom.
    rewrite dom_list_to_map_L, elem_of_list_to_set. reflexivity.
Qed.

(** X9. Identity without references round trip: for a configuration of any
    kind with an empty set of references, flattening what
    [expandVirtualMachineIdentity] returns gives one mapping with that kind,
    no references and empty principal and tenant — except for the kind
    "None", which flattens to the empty list, as does the identity expanded
    from an empty configuration. *)
Theorem flatten_expand_identity_kind
    (raw : gmap string value) (rest : list value) (kind : string) :
  raw !! "type" = Some (VString kind) ->
  raw !! "identity_ids" = Some (VSet []) ->
  (∃ identity,
     expandVirtualMachineIdentity (VMap raw :: rest) = Ok identity
     ∧ flattenVirtualMachineIdentity (Some identity)
       = if decide (kind = "None") then []
         else [VMap (list_to_map [
                 ("type", VString kind);
                 ("identity_ids", VStrings []);
                 ("principal_id", VString "");
                 ("tenant_id", VString "")])])
  ∧ (∃ identity,
       expandVirtualMachineIdentity [] = Ok identity
       ∧ flattenVirtualMachineIdentity (Some identity) = []).
Proof.
  intros Htype Hids. split.
  - exists (VirtualMachineIdentity.mk None None kind None). split.
    + unfold expandVirtualMachineIdentity. simpl.
      rewrite (index_lookup _ _ _ Htype), (index_lookup _ _ _ Hids).
      reflexivity.
    + unfold flattenVirtualMachineIdentity, ResourceIdentityTypeNone. simpl.
      destruct (decide (kind = "None")); reflexivity.
  - eexists. split; reflexivity.
Qed.

(** X10. [expandVirtualMachineIdentity] on a non-empty list panics exactly
    when its first mapping lacks a string [type] or a set of strings
    [identity_ids] (a missing key or an element that is not a string). *)
Theorem expandVirtualMachineIdentity_panics
    (raw : gmap string value) (rest : list value) :
  expandVirtualMachineIdentity (VMap raw :: rest) = Panic
  <-> identityShape raw = false.
Proof.
  unfold identityShape, expandVirtualMachineIdentity. simpl.
  destruct (index raw "type"); simpl;
    try (split; [reflexivity|intros _; reflexivity]).
  destruct (index raw "identity_ids"); simpl;
    try (split; [reflexivity|intros _; reflexivity]).
  destruct (forallb is_string elems) eqn:Hs.
  - destruct (identityIds_loop_shape elems ∅ Hs) as [m' ->]. simpl.
    split; [|discriminate].
    destruct (decide (0 < size m')%nat); [|discriminate].
    destruct (decide _); discriminate.
  - rewrite (identityIds_loop_not_strings elems ∅ Hs).
    split; reflexivity.
Qed.

(** X11. Identity references round trip for both kinds that include
    "UserAssigned": flattening what [expandVirtualMachineIdentity] returns
    keeps the kind and lists, without duplicates, exactly the references
    configured. *)
Theorem flatten_expand_identity_ids_kinds
    (raw : gmap string value) (rest : list value)
    (kind : string) (ids : list string) :
  raw !! "type" = Some (VString kind) ->
  raw !! "identity_ids" = Some (VSet (VString <$> ids)) ->
  kind = "UserAssigned" ∨ kind = "SystemAssigned, UserAssigned" ->
  ids ≠ [] ->
  ∃ identity out,
    expandVirtualMachineIdentity (VMap raw :: rest) = Ok identity
    ∧ flattenVirtualMachineIdentity (Some identity)
      = [VMap (list_to_map [
           ("type", VString kind);
           ("identity_ids", VStrings out);
           ("principal_id", VString "");
           ("tenant_id", VString "")])]
    ∧ NoDup out
    ∧ ∀ k, k ∈ out <-> k ∈ ids.
Proof using range_keys_perm.
  intros Htype Hids Hkind Hne.
  destruct (expandVirtualMachineIdentity_user_assigned raw rest kind ids
              Htype Hids Hkind Hne) as (m & Hexp & Hm).
  exists (VirtualMachineIdentity.mk None None kind (Some m)), (range_keys m).
  split; [exact Hexp|]. split; [|split].
  - unfold flattenVirtualMachineIdentity, ResourceIdentityTypeNone. simpl.
    rewrite decide_False; [reflexivity|].
    destruct Hkind as [-> | ->]; discriminate.
  - apply range_keys_NoDup.
  - intros k. rewrite range_keys_elem_of, elem_of_dom, Hm.
    destruct (decide (k ∈ ids)) as [Hin|Hnin].
    + split; [intros _; exact Hin | intros _; eexists; reflexivity].
    + split; [intros [x Hx]; discriminate Hx | contradiction].
Qed.

(** ** OS disk: expand *)

Lemma int32_in_range (n : Z) : - 2 ^ 31 <= n < 2 ^ 31 -> int32 n = n.
Proof. intros Hn. unfold int32. rewrite Z.mod_small by lia. lia. Qed.

(** X12. The size of an OS disk: on a schema-shaped configuration
    [expandVirtualMachineOSDisk] leaves [DiskSizeGB] unset for every size
    that is zero or negative, and sets it to the configured size for every
    positive size that fits 32 bits (beyond, to its low 32 bits). *)
Theorem expandVirtualMachineOSDisk_size
    (raw : gmap string value) (rest : list value) (osType : string) (n : Z) :
  osDiskShape raw = true ->
  raw !! "disk_size_gb" = Some (VInt n) ->
  ∃ disk,
    expandVirtualMachineOSDisk (VMap raw :: rest) osType = Ok disk
    ∧ (n <= 0 -> OSDisk.DiskSizeGB disk = None)
    ∧ (0 < n < 2 ^ 31 -> OSDisk.DiskSizeGB disk = Some n)
    ∧ (0 < n -> OSDisk.DiskSizeGB disk = Some (int32 n)).
Proof.
  intros Hs Hn.
  destruct (expandVirtualMachineOSDisk_shape raw rest osType Hs)
    as (disk & Hexp & _ & _ & Hsz).
  exists disk. split; [exact Hexp|].
  rewrite (Hsz n (index_lookup _ _ _ Hn)).
  split; [|split].
  - intros Hle. rewrite decide_False by lia. reflexivity.
  - intros Hin. rewrite decide_True by lia.
    rewrite int32_in_range by lia. reflexivity.
  - intros Hpos. rewrite decide_True by lia. reflexivity.
Qed.

(** X13. What [expandVirtualMachineOSDisk] keeps on every input: whenever
    it returns a disk, the create option is "FromImage", the OS type is the
    one passed in, the write-accelerator flag is set, the managed disk
    parameters are present without an identifier, the name is never the
    empty string, and an encryption set, when present, has a non-empty
    identifier. *)
Theorem expandVirtualMachineOSDisk_invariants
    (input : list value) (osType : string) (disk : OSDisk.t) :
  expandVirtualMachineOSDisk input osType = Ok disk ->
  OSDisk.CreateOption disk = "FromImage"
  ∧ OSDisk.OsType disk = osType
  ∧ OSDisk.WriteAcceleratorEnabled disk ≠ None
  ∧ OSDisk.Name disk ≠ Some ""
  ∧ ∃ managedDisk,
      OSDisk.ManagedDisk disk = Some managedDisk
      ∧ ManagedDiskParameters.ID managedDisk = None
      ∧ ∀ set, ManagedDiskParameters.DiskEncryptionSet managedDisk = Some set ->
          ∃ id, DiskEncryptionSetParameters.ID set = Some id ∧ id ≠ "".
Proof.
  intros Hexp. unfold expandVirtualMachineOSDisk in Hexp.
  destruct input as [|v rest]; [discriminate Hexp|]. simpl in Hexp.
  destruct v as [| | | | |raw| | |]; try discriminate Hexp. simpl in Hexp.
  destruct (index raw "caching"); try discriminate Hexp. simpl in Hexp.
  destruct (index raw "storage_account_type"); try discriminate Hexp.
  simpl in Hexp.
  destruct (index raw "write_accelerator_enabled"); try discriminate Hexp.
  simpl in Hexp.
  destruct (index raw "disk_size_gb"); try discriminate Hexp. simpl in Hexp.
  destruct (index raw "diff_disk_settings") as [| | | |dds| | | |];
    try discriminate Hexp. simpl in Hexp.
  assert (Htail : ∀ settings,
    (id ← as_string (index raw "disk_encryption_set_id");
     name ← as_string (index raw "name");
     Ok (OSDisk.mk osType (if decide (name ≠ "") then Some name else None)
           s (Some b) settings DiskCreateOptionTypesFromImage
           (if decide (0 < n) then Some (int32 n) else None)
           (Some (ManagedDiskParameters.mk s0
                    (if decide (id ≠ "")
                     then Some (DiskEncryptionSetParameters.mk (Some id))
                     else None) None)))) = Ok disk ->
    OSDisk.CreateOption disk = "FromImage"
    ∧ OSDisk.OsType disk = osType
    ∧ OSDisk.WriteAcceleratorEnabled disk ≠ None
    ∧ OSDisk.Name disk ≠ Some ""
    ∧ ∃ managedDisk,
        OSDisk.ManagedDisk disk = Some managedDisk
        ∧ ManagedDiskParameters.ID managedDisk = None
        ∧ ∀ set,
            ManagedDiskParameters.DiskEncryptionSet managedDisk = Some set ->
            ∃ id, DiskEncryptionSetParameters.ID set = Some id ∧ id ≠ "").
  { intros settings H.
    destruct (index raw "disk_encryption_set_id"); try discriminate H.
    simpl in H. destruct (index raw "name"); try discriminate H.
    simpl in H. injection H as <-. simpl.
    split; [reflexivity|]. split; [reflexivity|]. split; [discriminate|].
    split.
    - destruct (decide (s2 ≠ "")); [congruence|discriminate].
    - eexists. split; [reflexivity|]. split; [reflexivity|]. simpl.
      intros set Hset. destruct (decide (s1 ≠ "")); [|discriminate Hset].
      injection Hset as <-. exists s1. split; [reflexivity|assumption]. }
  destruct dds as [|v0 dds]; simpl in Hexp.
  - exact (Htail None Hexp).
  - destruct v0 as [| | | | |diffDiskRaw| | |]; try discriminate Hexp.
    simpl in Hexp.
    destruct (index diffDiskRaw "option"); try discriminate Hexp.
    simpl in Hexp. exact (Htail _ Hexp).
Qed.

(** X14. [expandVirtualMachineOSDisk] never returns an error; on a
    non-empty list whose first element is a mapping it panics exactly when
    the mapping does not have the shape of the OS disk schema (a field
    missing or of another type). *)
Theorem expandVirtualMachineOSDisk_panics
    (raw : gmap string value) (rest : list value) (osType : string) :
  (∀ input e, expandVirtualMachineOSDisk input osType ≠ Err e)
  ∧ (expandVirtualMachineOSDisk (VMap raw :: rest) osType = Panic
     <-> osDiskShape raw = false).
Proof.
  assert (Hfalse : ∀ raw' rest',
            osDiskShape raw' = false ->
            expandVirtualMachineOSDisk (VMap raw' :: rest') osType = Panic).
  { intros raw' rest' Hs. unfold osDiskShape in Hs.
    unfold expandVirtualMachineOSDisk. simpl.
    destruct (index raw' "caching"); try reflexivity. simpl in *.
    destruct (index raw' "storage_account_type"); try reflexivity.
    simpl in *.
    destruct (index raw' "write_accelerator_enabled"); try reflexivity.
    simpl in *.
    destruct (index raw' "disk_size_gb"); try reflexivity. simpl in *.
    destruct (index raw' "diff_disk_settings") as [| | | |dds| | | |];
      try reflexivity. simpl in *.
    destruct dds as [|v0 dds]; simpl in *.
    - destruct (index raw' "disk_encryption_set_id"); try reflexivity.
      simpl in *. destruct (index raw' "name"); try reflexivity.
      discriminate Hs.
    - destruct v0 as [| | | | |diffDiskRaw| | |]; try reflexivity. simpl in *.
      destruct (index diffDiskRaw "option"); try reflexivity. simpl in *.
      destruct (index raw' "disk_encryption_set_id"); try reflexivity.
      simpl in *. destruct (index raw' "name"); try reflexivity.
      discriminate Hs. }
  split.
  - intros input e. destruct input as [|v rest']; [discriminate|].
    destruct v as [| | | | |raw'| | |]; try discriminate.
    destruct (osDiskShape raw') eqn:Hs.
    + destruct (expandVirtualMachineOSDisk_shape raw' rest' osType Hs)
        as (disk & -> & _). discriminate.
    + rewrite (Hfalse raw' rest' Hs). discriminate.
  - destruct (osDiskShape raw) eqn:Hs.
    + destruct (expandVirtualMachineOSDisk_shape raw rest osType Hs)
        as (disk & -> & _). split; discriminate.
    + rewrite (Hfalse raw rest Hs). split; reflexivity.
Qed.

(** X15. OS disk round trip: for a schema-shaped configuration with a size
    between 0 and 2^31 - 1, flattening what [expandVirtualMachineOSDisk]
    returns makes no lookup and gives back the caching mode, the storage
    tier, the size, the name, the write-accelerator flag and the diff-disk
    option — but not the encryption set: [disk_encryption_set_id] comes back
    empty whatever was configured. *)
Theorem flatten_expand_OSDisk
    (raw : gmap string value) (rest : list value) (osType : string)
    (w : world) (caching storageAccountType id name : string)
    (writeAccelerator : bool) (n : Z) (dds settings : list value) :
  raw !! "caching" = Some (VString caching) ->
  raw !! "storage_account_type" = Some (VString storageAccountType) ->
  raw !! "write_accelerator_enabled" = Some (VBool writeAccelerator) ->
  raw !! "disk_size_gb" = Some (VInt n) ->
  0 <= n < 2 ^ 31 ->
  raw !! "diff_disk_settings" = Some (VList dds) ->
  (dds = [] ∧ settings = [])
  ∨ (∃ diffDiskRaw option more,
       dds = VMap diffDiskRaw :: more
       ∧ diffDiskRaw !! "option" = Some (VString option)
       ∧ settings = [VMap (list_to_map [("option", VString option)])]) ->
  raw !! "disk_encryption_set_id" = Some (VString id) ->
  raw !! "name" = Some (VString name) ->
  ∃ disk,
    expandVirtualMachineOSDisk (VMap raw :: rest) osType = Ok disk
    ∧ flattenVirtualMachineOSDisk (Some disk) w
      = (Ok [VMap (list_to_map [
           ("caching", VString caching);
           ("disk_size_gb", VInt n);
           ("diff_disk_settings", VList settings);
           ("disk_encryption_set_id", VString "");
           ("name", VString name);
           ("storage_account_type", VString storageAccountType);
           ("write_accelerator_enabled", VBool writeAccelerator)])],
         w).
Proof.
  intros Hc Hs Hw Hn Hrange Hd Hdds Hi Hname.
  assert (Hsize :
    match (if decide (0 < n) then Some (int32 n) else None) with
    | Some k => if decide (k ≠ 0) then k else 0
    | None => 0
    end = n).
  { destruct (decide (0 < n)).
    - rewrite int32_in_range by lia. rewrite decide_True by lia. reflexivity.
    - lia. }
  assert (Hnm : default "" (if decide (name ≠ "") then Some name else None)
                = name).
  { destruct (decide (name ≠ "")) as [|Hno]; [reflexivity|]. simpl.
    destruct (decide (name = "")); [congruence|contradiction]. }
  unfold expandVirtualMachineOSDisk. simpl.
  rewrite (index_lookup _ _ _ Hc), (index_lookup _ _ _ Hs),
    (index_lookup _ _ _ Hw), (index_lookup _ _ _ Hn),
    (index_lookup _ _ _ Hd), (index_lookup _ _ _ Hi),
    (index_lookup _ _ _ Hname). simpl.
  destruct Hdds as [[-> ->] | (diffDiskRaw & option & more & -> & Ho & ->)];
    simpl.
  - eexists. split; [reflexivity|]. run_remote. rewrite Hsize, Hnm.
    reflexivity.
  - rewrite (index_lookup _ _ _ Ho). simpl.
    eexists. split; [reflexivity|]. run_remote. rewrite Hsize, Hnm.
    reflexivity.
Qed.

(** ** OS disk: flatten *)

(** X16. A managed-disk identifier that does not parse: for an OS disk
    whose identifier the parser rejects, [flattenVirtualMachineOSDisk]
    returns the parser's error and makes no lookup (the state of the service
    is unchanged). *)
Theorem flattenVirtualMachineOSDisk_parse_error
    (w : world) (input : OSDisk.t) (managedDisk : ManagedDiskParameters.t)
    (managedDiskId : string) (err : error) :
  OSDisk.ManagedDisk input = Some managedDisk ->
  ManagedDiskParameters.ID managedDisk = Some managedDiskId ->
  ManagedDiskID managedDiskId = inr err ->
  flattenVirtualMachineOSDisk (Some input) w = (Err err, w).
Proof.
  intros Hmd Hid Hparse. run_remote. rewrite Hmd, Hid, Hparse. reflexivity.
Qed.

(** X17. No identifier, no lookup: for a nil OS disk
    [flattenVirtualMachineOSDisk] returns the empty list; for an OS disk
    without managed disk parameters, or whose parameters carry no
    identifier, it returns the mapping of the disk's own fields (an empty
    encryption set identifier, zero for a nil size); in both cases the state
    of the service is unchanged. *)
Theorem flattenVirtualMachineOSDisk_without_identifier
    (w : world) (input : OSDisk.t) :
  flattenVirtualMachineOSDisk None w = (Ok [], w)
  ∧ ((∀ managedDisk,
        OSDisk.ManagedDisk input = Some managedDisk ->
        ManagedDiskParameters.ID managedDisk = None) ->
     flattenVirtualMachineOSDisk (Some input) w
     = (Ok [VMap (list_to_map [
          ("caching", VString (OSDisk.Caching input));
          ("disk_size_gb", VInt (default 0 (OSDisk.DiskSizeGB input)));
          ("diff_disk_settings",
           VList match OSDisk.DiffDiskSettings input with
                 | Some settings =>
                     [VMap (list_to_map
                        [("option",
                          VString (DiffDiskSettings.Option settings))])]
                 | None => []
                 end);
          ("disk_encryption_set_id", VString "");
          ("name", VString (default "" (OSDisk.Name input)));
          ("storage_account_type",
           VString match OSDisk.ManagedDisk input with
                   | Some managedDisk =>
                       ManagedDiskParameters.StorageAccountType managedDisk
                   | None => ""
                   end);
          ("write_accelerator_enabled",
           VBool (default false (OSDisk.WriteAcceleratorEnabled input)))])],
        w)).
Proof.
  split; [reflexivity|]. intros Hno. run_remote.
  assert (Hsize :
    match OSDisk.DiskSizeGB input with
    | Some n => if decide (n ≠ 0) then n else 0
    | None => 0
    end = default 0 (OSDisk.DiskSizeGB input)).
  { destruct (OSDisk.DiskSizeGB input) as [n|]; simpl; [|reflexivity].
    destruct (decide (n ≠ 0)) as [|Hz]; [reflexivity|].
    destruct (decide (n = 0)) as [->|]; [reflexivity|contradiction]. }
  rewrite Hsize.
  destruct (OSDisk.ManagedDisk input) as [managedDisk|]; [|reflexivity].
  rewrite (Hno managedDisk eq_refl). reflexivity.
Qed.

(** X18. What a successful lookup fills in: when the identifier parses and
    the lookup answers without error (and not "not found") with a disk that
    has its properties, [flattenVirtualMachineOSDisk] keeps the storage tier
    and the size of the OS disk itself when it has them (a non-empty tier, a
    non-zero size) and takes them from the looked-up disk otherwise; the
    encryption set identifier always comes from the looked-up disk. *)
Theorem flattenVirtualMachineOSDisk_lookup_backfill
    (w w' : world) (input : OSDisk.t) (managedDisk : ManagedDiskParameters.t)
    (managedDiskId : string) (id : ManagedDiskId.t) (disk : Disk.t)
    (props : DiskProperties.t) :
  OSDisk.ManagedDisk input = Some managedDisk ->
  ManagedDiskParameters.ID managedDisk = Some managedDiskId ->
  ManagedDiskID managedDiskId = inl id ->
  Get w (ManagedDiskId.ResourceGroup id) (ManagedDiskId.Name id)
    = (disk, None, w') ->
  ResponseWasNotFound (Disk.Response disk) = false ->
  Disk.DiskProperties disk = Some props ->
  ∃ m,
    flattenVirtualMachineOSDisk (Some input) w = (Ok [VMap m], w')
    ∧ m !! "storage_account_type"
      = Some (VString
          (if decide (ManagedDiskParameters.StorageAccountType managedDisk = "")
           then match Disk.Sku disk with
                | Some sku => DiskSku.Name sku
                | None => ""
                end
           else ManagedDiskParameters.StorageAccountType managedDisk))
    ∧ m !! "disk_size_gb"
      = Some (VInt
          (if decide (default 0 (OSDisk.DiskSizeGB input) = 0)
           then default 0 (DiskProperties.DiskSizeGB props)
           else default 0 (OSDisk.DiskSizeGB input)))
    ∧ m !! "disk_encryption_set_id"
      = Some (VString
          match DiskProperties.Encryption props with
          | Some encryption =>
              default "" (Encryption.DiskEncryptionSetID encryption)
          | None => ""
          end).
Proof.
  intros Hmd Hid Hparse Hget Hnf Hprops. run_remote.
  rewrite Hmd, Hid, Hparse, Hget, Hnf. simpl.
  unfold Disk_Encryption. rewrite Hprops. simpl.
  eexists. split; [reflexivity|]. split; [|split].
  - rewrite lookup_insert_ne by discriminate.
    rewrite lookup_insert_ne by discriminate.
    rewrite lookup_insert_ne by discriminate.
    rewrite lookup_insert_ne by discriminate.
    rewrite lookup_insert_ne by discriminate.
    rewrite lookup_insert_eq. do 2 f_equal.
    destruct (Disk.Sku disk) as [sku|];
      destruct (decide (ManagedDiskParameters.StorageAccountType managedDisk
                        = "")) as [Hsat|Hsat]; congruence.
  - rewrite lookup_insert_ne by discriminate.
    rewrite lookup_insert_eq. do 2 f_equal.
    destruct (OSDisk.DiskSizeGB input) as [n|]; simpl.
    + destruct (decide (n ≠ 0)) as [Hn|Hn].
      * rewrite decide_False by exact Hn. rewrite decide_False by exact Hn.
        reflexivity.
      * destruct (decide (n = 0)) as [->|]; [|contradiction].
        simpl. destruct (DiskProperties.DiskSizeGB props); reflexivity.
    + destruct (DiskProperties.DiskSizeGB props); reflexivity.
  - rewrite lookup_insert_ne by discriminate.
    rewrite lookup_insert_ne by discriminate.
    rewrite lookup_insert_ne by discriminate.
    rewrite lookup_insert_eq. reflexivity.
Qed.

(** What [flattenVirtualMachineOSDisk] never reads: the encryption set
    of the OS disk's own managed disk parameters, its OS type and its create
    option. Two OS disks that differ only there flatten alike, in every run
    of the service. *)
Lemma flattenVirtualMachineOSDisk_ignores
    (w : world) (osType osType' createOption createOption' : string)
    (name : option string) (caching : string)
    (writeAccelerator : option bool) (settings : option DiffDiskSettings.t)
    (size : option Z) (storageAccountType : string)
    (set set' : option DiskEncryptionSetParameters.t) (id : option string) :
  flattenVirtualMachineOSDisk
    (Some (OSDisk.mk osType name caching writeAccelerator settings
             createOption size
             (Some (ManagedDiskParameters.mk storageAccountType set id)))) w
  = flattenVirtualMachineOSDisk
      (Some (OSDisk.mk osType' name caching writeAccelerator settings
               createOption' size
               (Some (ManagedDiskParameters.mk storageAccountType set' id)))) w.
Proof. reflexivity. Qed.

(** X19. The shape of the flattened OS disk: whenever
    [flattenVirtualMachineOSDisk] returns a list, it is empty for a nil OS
    disk and otherwise holds exactly one mapping, with exactly the seven
    fields of the OS disk schema. *)
Theorem flattenVirtualMachineOSDisk_fields
    (w w' : world) (input : option OSDisk.t) (output : list value) :
  flattenVirtualMachineOSDisk input w = (Ok output, w') ->
  match input with
  | None => output = []
  | Some _ =>
      ∃ m, output = [VMap m]
           ∧ ∀ k, is_Some (m !! k)
                  <-> k ∈ ["caching"; "disk_size_gb"; "diff_disk_settings";
                           "disk_encryption_set_id"; "name";
                           "storage_account_type";
                           "write_accelerator_enabled"]
  end.
Proof.
  intros H. destruct input as [input|].
  - unfold flattenVirtualMachineOSDisk in H.
    unfold mbind at 1 in H. unfold remote_bind in H.
    destruct (flattenOSDisk_managedDisk input _ w)
      as [[[[diskEncryptionSetId storageAccountType] diskSizeGb]| |] w1];
      try discriminate H.
    injection H as <- <-. eexists. split; [reflexivity|].
    intros k. rewrite <- elem_of_dom.
    rewrite !dom_insert_L, dom_empty_L. clear. set_solver.
  - injection H as <- <-. reflexivity.
Qed.

(** ** Data disks: expand *)

(** X20. One data disk per entry: when [data_disk] is not set,
    [expandVirtualMachineDataDisks] returns the empty list without a lookup;
    when it is set and the function returns a list, the list has one data
    disk per configured entry. *)
Theorem expandVirtualMachineDataDisks_length (d : ResourceData) (w0 : world) :
  (snd (GetOk d "data_disk") = false ->
   expandVirtualMachineDataDisks d w0 = (Ok [], w0))
  ∧ (∀ dataDisks result wf,
       GetOk d "data_disk" = (VList dataDisks, true) ->
       expandVirtualMachineDataDisks d w0 = (Ok result, wf) ->
       length result = length dataDisks).
Proof.
  unfold expandVirtualMachineDataDisks. split.
  - destruct (GetOk d "data_disk") as [dataDisksRaw ok]. simpl.
    intros ->. reflexivity.
  - intros dataDisks result wf -> H. simpl in H.
    unfold mbind at 1 in H. unfold remote_bind, lift in H. simpl in H.
    destruct (dataDisks_loop_extends _ _ _ _ _ H) as (added & -> & Hlen).
    exact Hlen.
Qed.

(** X21. An entry without a managed-disk identifier (absent, empty, or not
    a string): on a schema-shaped entry the loop body makes no lookup and
    builds a disk with create option "Empty", managed disk parameters
    without an identifier, and the configured size (unset when the entry has
    no integer size). *)
Theorem expandDataDisk_without_identifier
    (w : world) (disk : gmap string value) :
  dataDiskShape disk = true ->
  (∀ id, index disk "managed_disk_id" = VString id -> id = "") ->
  ∃ dataDisk managedDisk,
    expandDataDisk (VMap disk) w = (Ok dataDisk, w)
    ∧ DataDisk.CreateOption dataDisk = "Empty"
    ∧ DataDisk.ManagedDisk dataDisk = Some managedDisk
    ∧ ManagedDiskParameters.ID managedDisk = None
    ∧ DataDisk.DiskSizeGB dataDisk
      = match index disk "disk_size_gb" with
        | VInt n => Some (int32 n)
        | _ => None
        end.
Proof.
  intros Hs Hno. unfold dataDiskShape in Hs. split_shape Hs. run_expand.
  destruct (index disk "lun"); try discriminate; simpl.
  destruct (index disk "caching"); try discriminate; simpl.
  destruct (index disk "storage_account_type"); try discriminate; simpl.
  destruct (string_ok (index disk "name")) as [name nameOk]. simpl.
  assert (Hmid :
    (let '(managedDiskId, ok) := string_ok (index disk "managed_disk_id") in
     ok && bool_decide (managedDiskId ≠ "")) = false).
  { destruct (index disk "managed_disk_id") as [|id| | | | | | |];
      try reflexivity. simpl.
    rewrite (Hno id eq_refl). reflexivity. }
  destruct (string_ok (index disk "managed_disk_id")) as [managedDiskId ok].
  rewrite Hmid. simpl.
  destruct (disk !! "write_accelerator_enabled") as [wa|]; simpl.
  - destruct wa; try discriminate; simpl.
    eexists _, _. repeat split.
    destruct (index disk "disk_size_gb"); reflexivity.
  - eexists _, _. repeat split.
    destruct (index disk "disk_size_gb"); reflexivity.
Qed.

(** X22. A managed-disk identifier that does not parse: the loop body
    replaces the parser's error by one that names the entry (its [name]
    field), makes no lookup, and [expandVirtualMachineDataDisks] returns that
    error in the state the entries before it left. *)
Theorem expandVirtualMachineDataDisks_parse_failure
    (d : ResourceData) (w0 w : world) (pre post : list value)
    (result_pre : list DataDisk.t) (disk : gmap string value)
    (id : string) (err : error) :
  GetOk d "data_disk" = (VList (pre ++ VMap disk :: post), true) ->
  dataDisks_loop pre [] w0 = (Ok result_pre, w) ->
  dataDiskShape disk = true ->
  disk !! "managed_disk_id" = Some (VString id) -> id ≠ "" ->
  ManagedDiskID id = inr err ->
  expandVirtualMachineDataDisks d w0
  = (Err (Errorf "failed to parse Managed Disk ID for Data Disk %q"
            [fst (string_ok (index disk "name"))]),
     w).
Proof.
  intros Hd Hpre Hs Hid Hne Hparse.
  rewrite (expandVirtualMachineDataDisks_entry d w0 pre (VMap disk) post
             result_pre w Hd Hpre).
  unfold dataDiskShape in Hs. split_shape Hs. run_expand.
  destruct (index disk "lun"); try discriminate; simpl.
  destruct (index disk "caching"); try discriminate; simpl.
  destruct (index disk "storage_account_type"); try discriminate; simpl.
  rewrite (index_lookup _ _ _ Hid). simpl.
  rewrite bool_decide_true by exact Hne.
  destruct (string_ok (index disk "name")) as [name nameOk]. simpl.
  rewrite Hparse. reflexivity.
Qed.

(** X23. When the create option becomes "Attach": for an entry whose
    identifier parses and whose lookup returns no error, every disk the loop
    body builds has create option "Attach" exactly when the entry's
    [create_option] is the empty string; with any other [create_option] (a
    non-empty one, as on a later pass, or none) it is "Empty". The body
    builds a disk when the disk looked up carries its properties, and panics
    when it carries none. *)
Theorem expandDataDisk_create_option
    (w w' : world) (disk : gmap string value) (id : string)
    (dataDiskId : ManagedDiskId.t) (existingDisk : Disk.t) :
  dataDiskShape disk = true ->
  disk !! "managed_disk_id" = Some (VString id) -> id ≠ "" ->
  ManagedDiskID id = inl dataDiskId ->
  Get w (ManagedDiskId.ResourceGroup dataDiskId) (ManagedDiskId.Name dataDiskId)
    = (existingDisk, None, w') ->
  (∀ dataDisk wx,
     expandDataDisk (VMap disk) w = (Ok dataDisk, wx) ->
     (DataDisk.CreateOption dataDisk = "Attach"
      <-> index disk "create_option" = VString "")
     ∧ (index disk "create_option" ≠ VString "" ->
        DataDisk.CreateOption dataDisk = "Empty"))
  ∧ match Disk.DiskProperties existingDisk with
    | Some _ => ∃ dataDisk, expandDataDisk (VMap disk) w = (Ok dataDisk, w')
    | None => expandDataDisk (VMap disk) w = (Panic, w')
    end.
Proof.
  intros Hs Hid Hne Hparse Hget.
  destruct (Disk.DiskProperties existingDisk) as [props|] eqn:Hprops.
  - destruct (expandDataDisk_lookup_ok w w' disk id dataDiskId existingDisk
                props Hs Hid Hne Hparse Hget Hprops)
      as (dataDisk & managedDisk & Hbody & _ & _ & _ & _ & Hopt).
    split; [|exists dataDisk; exact Hbody].
    intros dataDisk' wx Hbody'. rewrite Hbody in Hbody'.
    injection Hbody' as <- <-. rewrite Hopt.
    destruct (index disk "create_option") as [|createOption| | | | | | |];
      simpl; try (split; [split; discriminate | reflexivity]).
    destruct (decide (createOption = "")) as [->|Hco].
    + simpl. split; [split; reflexivity | congruence].
    + rewrite bool_decide_false by exact Hco.
      split; [split; [discriminate | congruence] | reflexivity].
  - rewrite (expandDataDisk_lookup_nil_properties w w' disk id dataDiskId
               existingDisk Hs Hid Hne Hparse Hget Hprops).
    split; [intros dataDisk wx Hbody; discriminate Hbody | reflexivity].
Qed.

(** X24. The first entry that fails ends the run: once the entries before
    it have been expanded, an entry whose body returns an error or panics
    makes [expandVirtualMachineDataDisks] return that outcome in the state
    the entry left — the entries after it are neither expanded nor looked
    up. *)
Theorem expandVirtualMachineDataDisks_stops
    (d : ResourceData) (w0 w w' : world) (pre post : list value)
    (result_pre : list DataDisk.t) (v : value) :
  GetOk d "data_disk" = (VList (pre ++ v :: post), true) ->
  dataDisks_loop pre [] w0 = (Ok result_pre, w) ->
  (∀ e, expandDataDisk v w = (Err e, w') ->
        expandVirtualMachineDataDisks d w0 = (Err e, w'))
  ∧ (expandDataDisk v w = (Panic, w') ->
     expandVirtualMachineDataDisks d w0 = (Panic, w')).
Proof.
  intros Hd Hpre.
  rewrite (expandVirtualMachineDataDisks_entry d w0 pre v post result_pre w
             Hd Hpre).
  split; [intros e ->|intros ->]; reflexivity.
Qed.

(** X25. Data disk round trip: for an entry that creates an empty disk (no
    managed-disk identifier) with a LUN and a size that fit 32 bits,
    flattening the disk the loop body builds gives back the name, the LUN,
    the caching mode, the storage tier, the encryption set identifier, the
    size and the write-accelerator flag, with create option "Empty", an
    empty managed-disk identifier and zero IOPS and MBps. *)
Theorem flatten_expand_DataDisk
    (w : world) (disk : gmap string value)
    (name caching storageAccountType set : string) (lun size : Z)
    (writeAccelerator : bool) :
  disk !! "name" = Some (VString name) ->
  disk !! "lun" = Some (VInt lun) -> - 2 ^ 31 <= lun < 2 ^ 31 ->
  disk !! "caching" = Some (VString caching) ->
  disk !! "storage_account_type" = Some (VString storageAccountType) ->
  disk !! "disk_encryption_set_id" = Some (VString set) ->
  disk !! "disk_size_gb" = Some (VInt size) -> - 2 ^ 31 <= size < 2 ^ 31 ->
  disk !! "managed_disk_id" = Some (VString "") ->
  disk !! "write_accelerator_enabled" = Some (VBool writeAccelerator) ->
  ∃ dataDisk,
    expandDataDisk (VMap disk) w = (Ok dataDisk, w)
    ∧ flattenVirtualMachineDataDisks (Some [dataDisk])
      = [VMap (list_to_map [
           ("name", VString name);
           ("lun", VInt lun);
           ("caching", VString caching);
           ("storage_account_type", VString storageAccountType);
           ("managed_disk_id", VString "");
           ("disk_encryption_set_id", VString set);
           ("disk_size_gb", VInt size);
           ("create_option", VCreateOption "Empty");
           ("write_accelerator_enabled", VBool writeAccelerator);
           ("disk_iops_read_write", VInt 0);
           ("disk_mbps_read_write", VInt 0)])].
Proof.
  intros Hname Hlun Hlr Hc Hs Hset Hsize Hsr Hmid Hwa. run_expand.
  rewrite (index_lookup _ _ _ Hname), (index_lookup _ _ _ Hlun),
    (index_lookup _ _ _ Hc), (index_lookup _ _ _ Hs),
    (index_lookup _ _ _ Hset), (index_lookup _ _ _ Hsize),
    (index_lookup _ _ _ Hmid), Hwa. simpl.
  eexists. split; [reflexivity|].
  unfold flattenDataDisk. simpl.
  rewrite !int32_in_range by assumption.
  destruct (decide (set = "")) as [->|Hne]; [reflexivity|].
  rewrite bool_decide_true by exact Hne. reflexivity.
Qed.

(** X26. An entry without a managed-disk identifier never yields an error:
    its loop body panics exactly when the entry lacks an integer [lun], a
    string [caching] or [storage_account_type], or holds a
    [write_accelerator_enabled] that is not a boolean; otherwise it returns
    a disk. No lookup is made either way. *)
Theorem expandDataDisk_panics (w : world) (disk : gmap string value) :
  (∀ id, index disk "managed_disk_id" = VString id -> id = "") ->
  (∀ e w', expandDataDisk (VMap disk) w ≠ (Err e, w'))
  ∧ (expandDataDisk (VMap disk) w = (Panic, w)
     <-> dataDiskShape disk = false).
Proof.
  intros Hno. destruct (dataDiskShape disk) eqn:Hs.
  - destruct (expandDataDisk_without_identifier w disk Hs Hno)
      as (dataDisk & managedDisk & -> & _).
    split; [discriminate | split; discriminate].
  - assert (Hpanic : expandDataDisk (VMap disk) w = (Panic, w)).
    { unfold dataDiskShape in Hs. run_expand.
      destruct (index disk "lun"); try reflexivity; simpl in *.
      destruct (index disk "caching"); try reflexivity; simpl in *.
      destruct (index disk "storage_account_type"); try reflexivity;
        simpl in *.
      destruct (string_ok (index disk "name")) as [name nameOk]. simpl.
      assert (Hmid :
        (let '(managedDiskId, ok) :=
           string_ok (index disk "managed_disk_id") in
         ok && bool_decide (managedDiskId ≠ "")) = false).
      { destruct (index disk "managed_disk_id") as [|id| | | | | | |];
          try reflexivity. simpl.
        rewrite (Hno id eq_refl). reflexivity. }
      destruct (string_ok (index disk "managed_disk_id"))
        as [managedDiskId ok].
      rewrite Hmid. simpl.
      destruct (disk !! "write_accelerator_enabled") as [wa|];
        [|discriminate Hs].
      destruct wa; try reflexivity. discriminate Hs. }
    rewrite Hpanic. split; [discriminate | split; reflexivity].
Qed.

(** ** Data disks: flatten *)

(** X27. The flattened data disks: a nil list flattens to the empty list;
    otherwise there is one mapping per data disk, in order, with exactly the
    eleven fields of the data disk schema. Each field holds the disk's value,
    and the zero value where the disk has nil: the empty string for a nil
    name, identifier or encryption set and for absent managed disk
    parameters, 0 for a nil LUN, size, IOPS or MBps, [false] for a nil
    write-accelerator flag. *)
Theorem flattenVirtualMachineDataDisks_fields :
  flattenVirtualMachineDataDisks None = []
  ∧ ∀ input,
      length (flattenVirtualMachineDataDisks (Some input)) = length input
      ∧ ∀ i v,
          flattenVirtualMachineDataDisks (Some input) !! i = Some v ->
          ∃ dataDisk m,
            input !! i = Some dataDisk ∧ v = VMap m
            ∧ m !! "name" = Some (VString (default "" (DataDisk.Name dataDisk)))
            ∧ m !! "lun" = Some (VInt (default 0 (DataDisk.Lun dataDisk)))
            ∧ m !! "caching" = Some (VString (DataDisk.Caching dataDisk))
            ∧ m !! "storage_account_type"
              = Some (VString
                  match DataDisk.ManagedDisk dataDisk with
                  | Some managedDisk =>
                      ManagedDiskParameters.StorageAccountType managedDisk
                  | None => ""
                  end)
            ∧ m !! "managed_disk_id"
              = Some (VString
                  match DataDisk.ManagedDisk dataDisk with
                  | Some managedDisk =>
                      default "" (ManagedDiskParameters.ID managedDisk)
                  | None => ""
                  end)
            ∧ m !! "disk_encryption_set_id"
              = Some (VString
                  match DataDisk.ManagedDisk dataDisk with
                  | Some managedDisk =>
                      match ManagedDiskParameters.DiskEncryptionSet
                              managedDisk with
                      | Some set =>
                          default "" (DiskEncryptionSetParameters.ID set)
                      | None => ""
                      end
                  | None => ""
                  end)
            ∧ m !! "disk_size_gb"
              = Some (VInt (default 0 (DataDisk.DiskSizeGB dataDisk)))
            ∧ m !! "create_option"
              = Some (VCreateOption (DataDisk.CreateOption dataDisk))
            ∧ m !! "write_accelerator_enabled"
              = Some (VBool
                  (default false (DataDisk.WriteAcceleratorEnabled dataDisk)))
            ∧ m !! "disk_iops_read_write"
              = Some (VInt (default 0 (DataDisk.DiskIOPSReadWrite dataDisk)))
            ∧ m !! "disk_mbps_read_write"
              = Some (VInt (default 0 (DataDisk.DiskMBpsReadWrite dataDisk)))
            ∧ ∀ k, is_Some (m !! k)
                   <-> k ∈ ["name"; "lun"; "caching"; "storage_account_type";
                            "managed_disk_id"; "disk_encryption_set_id";
                            "disk_size_gb"; "create_option";
                            "write_accelerator_enabled";
                            "disk_iops_read_write"; "disk_mbps_read_write"].
Proof.
  split; [reflexivity|]. intros input. simpl.
  split; [apply length_fmap|].
  intros i v Hv. rewrite list_lookup_fmap in Hv.
  destruct (input !! i) as [dataDisk|]; [|discriminate Hv].
  injection Hv as <-. eexists dataDisk, _.
  split; [reflexivity|]. split; [reflexivity|].
  do 11 (split; [reflexivity|]).
  intros k. rewrite <- elem_of_dom.
  rewrite dom_list_to_map_L, elem_of_list_to_set. reflexivity.
Qed.

End Collaborators.

(** * Worked examples in the sample environment *)

Lemma identity_ids_guard_example :
  expandVirtualMachineIdentity
    [VMap (Sample.identity_config "SystemAssigned" ["id1"])]
  = Err (Errorf
      "`identity_ids` can only be specified when `type` includes `UserAssigned`"
      [])
  ∧ expandVirtualMachineIdentity
      [VMap (Sample.identity_config "SystemAssigned" [])]
    = Ok (VirtualMachineIdentity.mk None None "SystemAssigned" None).
Proof.
  split.
  - apply (expandVirtualMachineIdentity_identity_ids_guard
             (Sample.identity_config "SystemAssigned" ["id1"]) []
             "SystemAssigned" ["id1"] eq_refl eq_refl); discriminate.
  - apply (expandVirtualMachineIdentity_identity_ids_guard
             (Sample.identity_config "SystemAssigned" []) []
             "SystemAssigned" [] eq_refl eq_refl); reflexivity.
Defined.

Lemma flatten_expand_AdditionalCapabilities_example :
  ∃ capabilities,
    expandVirtualMachineAdditionalCapabilities
      [VMap (list_to_map [("ultra_ssd_enabled", VBool true)])]
    = Ok capabilities
    ∧ flattenVirtualMachineAdditionalCapabilities (Some capabilities)
      = [VMap (list_to_map [("ultra_ssd_enabled", VBool true)])].
Proof.
  apply (flatten_expand_AdditionalCapabilities
           (list_to_map [("ultra_ssd_enabled", VBool true)]) true).
  reflexivity.
Defined.

Lemma flatten_expand_identity_ids_example :
  ∃ identity out,
    expandVirtualMachineIdentity
      [VMap (Sample.identity_config "UserAssigned" ["id2"; "id1"])]
    = Ok identity
    ∧ flattenVirtualMachineIdentity Sample.range_keys (Some identity)
      = [VMap (list_to_map [
           ("type", VString "UserAssigned");
           ("identity_ids", VStrings out);
           ("principal_id", VString "");
           ("tenant_id", VString "")])]
    ∧ out ≡ₚ ["id2"; "id1"]
    ∧ length out = 2%nat.
Proof.
  destruct (flatten_expand_identity_ids Sample.range_keys
              (fun m => Permutation_refl _)
              (Sample.identity_config "UserAssigned" ["id2"; "id1"]) []
              ["id2"; "id1"] eq_refl eq_refl)
    as (identity & out & Hexp & Hflat & _ & _ & Hperm & _).
  exists identity, out.
  destruct Hperm as [Hperm Hlen].
  - apply (bool_decide_unpack _). reflexivity.
  - repeat split; assumption.
Defined.

Lemma flattenVirtualMachineOSDisk_lookup_errors_example :
  flattenVirtualMachineOSDisk Sample.world Sample.ManagedDiskID Sample.Get
    (Some (Sample.os_disk Sample.ephemeral_id)) 0%nat
  = (Ok [VMap (list_to_map [
       ("caching", VString "ReadWrite");
       ("disk_size_gb", VInt 0);
       ("diff_disk_settings", VList []);
       ("disk_encryption_set_id", VString "");
       ("name", VString "osdisk");
       ("storage_account_type", VString "Standard_LRS");
       ("write_accelerator_enabled", VBool false)])],
     1%nat)
  ∧ flattenVirtualMachineOSDisk Sample.world Sample.ManagedDiskID Sample.Get
      (Some (Sample.os_disk Sample.broken_id)) 0%nat
    = (Err (External "internal server error"), 1%nat).
Proof.
  split.
  - apply (flattenVirtualMachineOSDisk_lookup_errors Sample.world
             Sample.ManagedDiskID Sample.Get 0%nat 1%nat
             (Sample.os_disk Sample.ephemeral_id)
             (ManagedDiskParameters.mk "Standard_LRS" None
                (Some Sample.ephemeral_id))
             Sample.ephemeral_id (ManagedDiskId.mk "rg1" "ephemeral")
             (Disk.mk (Some 404) None None) (Some (External "not found"))
             eq_refl eq_refl eq_refl eq_refl).
    reflexivity.
  - apply (flattenVirtualMachineOSDisk_lookup_errors Sample.world
             Sample.ManagedDiskID Sample.Get 0%nat 1%nat
             (Sample.os_disk Sample.broken_id)
             (ManagedDiskParameters.mk "Standard_LRS" None
                (Some Sample.broken_id))
             Sample.broken_id (ManagedDiskId.mk "rg1" "broken")
             (Disk.mk (Some 500) None None)
             (Some (External "internal server error"))
             eq_refl eq_refl eq_refl eq_refl);
      reflexivity.
Defined.

Lemma OSDisk_no_size_example :
  (∃ disk,
     expandVirtualMachineOSDisk [VMap Sample.os_disk_config] "Linux" = Ok disk
     ∧ OSDisk.DiskSizeGB disk = None)
  ∧ (∃ m w',
       flattenVirtualMachineOSDisk Sample.world Sample.ManagedDiskID Sample.Get
         (Some (Sample.os_disk Sample.ephemeral_id)) 0%nat
       = (Ok [VMap m], w')
       ∧ m !! "disk_size_gb" = Some (VInt 0)).
Proof.
  destruct (OSDisk_no_size Sample.world Sample.ManagedDiskID Sample.Get)
    as [Hexpand Hflatten].
  split.
  - apply (Hexpand Sample.os_disk_config [] "Linux"); reflexivity.
  - assert (Hno : lookupSuppliesNoSize Sample.world Sample.ManagedDiskID
                    Sample.Get 0%nat (Sample.os_disk Sample.ephemeral_id)).
    { exists (ManagedDiskId.mk "rg1" "ephemeral").
      split; [reflexivity|]. left. reflexivity. }
    destruct (Hflatten 0%nat (Sample.os_disk Sample.ephemeral_id) eq_refl Hno)
      as [Hzero | (w' & managedDisk & managedDiskId & id & disk
                   & Hmd & Hid & Hparse & Hget & _)].
    + exact Hzero.
    + exfalso. simpl in Hmd. injection Hmd as <-.
      simpl in Hid. injection Hid as <-.
      vm_compute in Hparse. injection Hparse as <-.
      vm_compute in Hget. discriminate Hget.
Defined.

Lemma expanders_return_on_shaped_input_example :
  ∃ disk,
    expandVirtualMachineOSDisk [VMap Sample.os_disk_config] "Linux" = Ok disk.
Proof.
  destruct (expanders_return_on_shaped_input Sample.range_keys)
    as [HOSDisk _].
  apply (HOSDisk Sample.os_disk_config [] "Linux"). reflexivity.
Defined.

Lemma expandVirtualMachineDataDisks_attach_example :
  ∃ result_pre dataDisk,
    expandVirtualMachineDataDisks Sample.world Sample.ManagedDiskID Sample.Get
      Sample.ResourceData Sample.GetOk (Sample.resource Sample.data1_id) 0%nat
    = (Ok (result_pre ++ [dataDisk]), 1%nat)
    ∧ DataDisk.CreateOption dataDisk = "Attach".
Proof.
  assert (Hid : Sample.data1_id ≠ "") by discriminate.
  assert (Hname : "data" ≠ "") by discriminate.
  destruct (expandVirtualMachineDataDisks_attach Sample.world
              Sample.ManagedDiskID Sample.Get Sample.ResourceData Sample.GetOk
              (Sample.resource Sample.data1_id) 0%nat 0%nat 1%nat
              [VMap Sample.empty_disk] [] [Sample.empty_data_disk]
              (Sample.existing_disk Sample.data1_id) "data" Sample.data1_id
              (ManagedDiskId.mk "rg1" "data1") Sample.data1
              eq_refl eq_refl eq_refl eq_refl Hid eq_refl Hname eq_refl
              eq_refl eq_refl)
    as [_ Hbuilt].
  cbv [Sample.data1 Disk.DiskProperties] in Hbuilt.
  destruct Hbuilt as (dataDisk & managedDisk & _ & Hattach & _ & _ & Hlast).
  eexists _, dataDisk. split; [apply Hlast; reflexivity | exact Hattach].
Defined.

Lemma expandVirtualMachineDataDisks_lookup_failure_example :
  expandVirtualMachineDataDisks Sample.world Sample.ManagedDiskID Sample.Get
    Sample.ResourceData Sample.GetOk (Sample.resource Sample.broken_id) 0%nat
  = (Err (Errorf
       "failed to retrieve Managed Disk information for Data Disk %q (resource group %q)"
       ["broken"; "rg1"]),
     1%nat).
Proof.
  assert (Hid : Sample.broken_id ≠ "") by discriminate.
  destruct (expandVirtualMachineDataDisks_lookup_failure Sample.world
              Sample.ManagedDiskID Sample.Get Sample.ResourceData Sample.GetOk
              (Sample.resource Sample.broken_id) 0%nat 0%nat 1%nat
              [VMap Sample.empty_disk] [] [Sample.empty_data_disk]
              (Sample.existing_disk Sample.broken_id) Sample.broken_id
              (ManagedDiskId.mk "rg1" "broken") (Disk.mk (Some 500) None None)
              (External "internal server error")
              eq_refl eq_refl eq_refl eq_refl Hid eq_refl eq_refl)
    as [Herr _].
  exact Herr.
Defined.

Lemma expandVirtualMachineDataDisks_lookup_size_example :
  ∃ result_pre dataDisk,
    expandVirtualMachineDataDisks Sample.world Sample.ManagedDiskID Sample.Get
      Sample.ResourceData Sample.GetOk (Sample.resource Sample.data1_id) 0%nat
    = (Ok (result_pre ++ [dataDisk]), 1%nat)
    ∧ Sample.existing_disk Sample.data1_id !! "disk_size_gb" = Some (VInt 64)
    ∧ DataDisk.DiskSizeGB dataDisk = Some 128.
Proof.
  assert (Hid : Sample.data1_id ≠ "") by discriminate.
  destruct (expandVirtualMachineDataDisks_lookup_size Sample.world
              Sample.ManagedDiskID Sample.Get Sample.ResourceData Sample.GetOk
              (Sample.resource Sample.data1_id) 0%nat 0%nat 1%nat
              [VMap Sample.empty_disk] [] [Sample.empty_data_disk]
              (Sample.existing_disk Sample.data1_id) 64 Sample.data1_id
              (ManagedDiskId.mk "rg1" "data1") Sample.data1
              eq_refl eq_refl eq_refl eq_refl eq_refl Hid eq_refl eq_refl)
    as [_ Hbuilt].
  cbv [Sample.data1 Disk.DiskProperties] in Hbuilt.
  destruct Hbuilt as (dataDisk & _ & Hsize & Hlast).
  eexists _, dataDisk.
  split; [apply Hlast; reflexivity | split; [reflexivity | exact Hsize]].
Defined.

(** * Where the specification and the code part *)

(** C7. Where the code departs from the claim: an OS disk object whose
    [DiskSizeGB] is nil and whose lookup supplies no size — the identifier
    parses and the service answers without error with a disk that has no
    properties. [flattenVirtualMachineOSDisk] does not report 0: it reads
    the size under a nil check of [disk.DiskProperties], then selects
    [disk.Encryption] through the same nil pointer and panics. *)
Lemma flattenVirtualMachineOSDisk_nil_size_no_properties :
  OSDisk.DiskSizeGB (Sample.os_disk Sample.data1_id) = None
  ∧ Sample.ManagedDiskID Sample.data1_id
    = inl (ManagedDiskId.mk "rg1" "data1")
  ∧ Sample.Get_bare 0%nat "rg1" "data1"
    = (Disk.mk (Some 200) None None, None, 1%nat)
  ∧ flattenVirtualMachineOSDisk Sample.world Sample.ManagedDiskID
      Sample.Get_bare (Some (Sample.os_disk Sample.data1_id)) 0%nat
    = (Panic, 1%nat)
  ∧ ¬ ∃ m w',
        flattenVirtualMachineOSDisk Sample.world Sample.ManagedDiskID
          Sample.Get_bare (Some (Sample.os_disk Sample.data1_id)) 0%nat
        = (Ok [VMap m], w')
        ∧ m !! "disk_size_gb" = Some (VInt 0).
Proof.
  split; [reflexivity|]. split; [reflexivity|]. split; [reflexivity|].
  split; [reflexivity|]. intros (m & w' & Hflat & _). discriminate Hflat.
Qed.

(** C4, as stated, fails: [expandVirtualMachineOSDisk] does not return a disk
    for every input list. On the empty list [input[0]] is out of range. *)
Lemma expandVirtualMachineOSDisk_empty_list :
  expandVirtualMachineOSDisk [] "Linux" = Panic
  ∧ ¬ ∃ disk, expandVirtualMachineOSDisk [] "Linux" = Ok disk.
Proof.
  split; [reflexivity|]. intros [disk Hdisk]. discriminate Hdisk.
Qed.

(** C8, as stated, fails: on the three-field mapping itself the expander
    stops at the first field that is missing,
    [raw["write_accelerator_enabled"].(bool)], and yields no object. *)
Lemma OSDisk_example_three_fields :
  expandVirtualMachineOSDisk
    [VMap (list_to_map [
       ("caching", VString "ReadWrite");
       ("storage_account_type", VString "Premium_LRS");
       ("disk_size_gb", VInt 0)])]
    "Linux"
  = Panic
  ∧ ¬ ∃ disk,
        expandVirtualMachineOSDisk
          [VMap (list_to_map [
             ("caching", VString "ReadWrite");
             ("storage_account_type", VString "Premium_LRS");
             ("disk_size_gb", VInt 0)])]
          "Linux"
        = Ok disk
        ∧ OSDisk.DiskSizeGB disk = None
        ∧ OSDisk.CreateOption disk = "FromImage".
Proof.
  split; [reflexivity|]. intros (disk & Hdisk & _). discriminate Hdisk.
Qed.

(** * Worked examples for the further properties *)

Lemma flatten_expand_AdditionalCapabilities_any_example :
  ∃ b,
    flattenVirtualMachineAdditionalCapabilities
      (Some (AdditionalCapabilities.mk None))
    = [VMap (list_to_map [("ultra_ssd_enabled", VBool b)])]
    ∧ b = false.
Proof.
  destruct (flatten_expand_AdditionalCapabilities_any []
              (AdditionalCapabilities.mk None) eq_refl)
    as (b & Hflat & Hnil & _).
  exists b. split; [exact Hflat | apply Hnil; reflexivity].
Defined.

Lemma expandVirtualMachineIdentity_user_assigned_example :
  ∃ m,
    expandVirtualMachineIdentity
      [VMap (Sample.identity_config "SystemAssigned, UserAssigned"
               ["id1"; "id1"; "id2"])]
    = Ok (VirtualMachineIdentity.mk None None "SystemAssigned, UserAssigned"
            (Some m))
    ∧ m !! "id1" = Some (Some UserAssignedIdentitiesValue.zero)
    ∧ m !! "id3" = None.
Proof.
  assert (Hne : ["id1"; "id1"; "id2"] ≠ []) by discriminate.
  destruct (expandVirtualMachineIdentity_user_assigned
              (Sample.identity_config "SystemAssigned, UserAssigned"
                 ["id1"; "id1"; "id2"]) []
              "SystemAssigned, UserAssigned" ["id1"; "id1"; "id2"]
              eq_refl eq_refl (or_intror eq_refl) Hne)
    as (m & Hexp & Hm).
  exists m. split; [exact Hexp|]. rewrite !Hm. split; reflexivity.
Defined.

Lemma flatten_expand_identity_kind_example :
  ∃ identity,
    expandVirtualMachineIdentity
      [VMap (Sample.identity_config "SystemAssigned" [])] = Ok identity
    ∧ flattenVirtualMachineIdentity Sample.range_keys (Some identity)
      = [VMap (list_to_map [
           ("type", VString "SystemAssigned");
           ("identity_ids", VStrings []);
           ("principal_id", VString "");
           ("tenant_id", VString "")])].
Proof.
  destruct (flatten_expand_identity_kind Sample.range_keys
              (Sample.identity_config "SystemAssigned" []) []
              "SystemAssigned" eq_refl eq_refl)
    as [(identity & Hexp & Hflat) _].
  exists identity. split; [exact Hexp | exact Hflat].
Defined.

Lemma flatten_expand_identity_ids_kinds_example :
  ∃ identity out,
    expandVirtualMachineIdentity
      [VMap (Sample.identity_config "SystemAssigned, UserAssigned" ["id1"])]
    = Ok identity
    ∧ flattenVirtualMachineIdentity Sample.range_keys (Some identity)
      = [VMap (list_to_map [
           ("type", VString "SystemAssigned, UserAssigned");
           ("identity_ids", VStrings out);
           ("principal_id", VString "");
           ("tenant_id", VString "")])]
    ∧ "id1" ∈ out.
Proof.
  assert (Hne : ["id1"] ≠ []) by discriminate.
  destruct (flatten_expand_identity_ids_kinds Sample.range_keys
              (fun m => Permutation_refl _)
              (Sample.identity_config "SystemAssigned, UserAssigned" ["id1"])
              [] "SystemAssigned, UserAssigned" ["id1"]
              eq_refl eq_refl (or_intror eq_refl) Hne)
    as (identity & out & Hexp & Hflat & _ & Hmem).
  exists identity, out. split; [exact Hexp|]. split; [exact Hflat|].
  apply Hmem. left.
Defined.

Lemma expandVirtualMachineOSDisk_size_example :
  ∃ disk,
    expandVirtualMachineOSDisk [VMap Sample.os_disk_config_64] "Linux"
    = Ok disk
    ∧ OSDisk.DiskSizeGB disk = Some 64.
Proof.
  destruct (expandVirtualMachineOSDisk_size Sample.os_disk_config_64 []
              "Linux" 64 eq_refl eq_refl)
    as (disk & Hexp & _ & Hsize & _).
  exists disk. split; [exact Hexp | apply Hsize; lia].
Defined.

Lemma expandVirtualMachineOSDisk_invariants_example :
  ∃ disk managedDisk,
    expandVirtualMachineOSDisk [VMap Sample.os_disk_config_64] "Windows"
    = Ok disk
    ∧ OSDisk.CreateOption disk = "FromImage"
    ∧ OSDisk.ManagedDisk disk = Some managedDisk
    ∧ ManagedDiskParameters.ID managedDisk = None.
Proof.
  destruct (expandVirtualMachineOSDisk [VMap Sample.os_disk_config_64]
              "Windows") as [disk|e|] eqn:Hexp;
    [|discriminate Hexp|discriminate Hexp].
  destruct (expandVirtualMachineOSDisk_invariants
              [VMap Sample.os_disk_config_64] "Windows" disk Hexp)
    as (Hco & _ & _ & _ & managedDisk & Hmd & Hid & _).
  exists disk, managedDisk.
  split; [reflexivity|]. split; [exact Hco|]. split; [exact Hmd | exact Hid].
Defined.

Lemma flatten_expand_OSDisk_example :
  ∃ disk,
    expandVirtualMachineOSDisk [VMap Sample.os_disk_config_64] "Linux"
    = Ok disk
    ∧ flattenVirtualMachineOSDisk Sample.world Sample.ManagedDiskID Sample.Get
        (Some disk) 0%nat
      = (Ok [VMap (list_to_map [
           ("caching", VString "ReadOnly");
           ("disk_size_gb", VInt 64);
           ("diff_disk_settings", VList []);
           ("disk_encryption_set_id", VString "");
           ("name", VString "os64");
           ("storage_account_type", VString "StandardSSD_LRS");
           ("write_accelerator_enabled", VBool true)])],
         0%nat).
Proof.
  assert (Hrange : 0 <= 64 < 2 ^ 31) by lia.
  apply (flatten_expand_OSDisk Sample.world Sample.ManagedDiskID Sample.Get
           Sample.os_disk_config_64 [] "Linux" 0%nat
           "ReadOnly" "StandardSSD_LRS" "des1" "os64" true 64 [] []
           eq_refl eq_refl eq_refl eq_refl Hrange eq_refl
           (or_introl (conj eq_refl eq_refl)) eq_refl eq_refl).
Defined.

Lemma flattenVirtualMachineOSDisk_parse_error_example :
  flattenVirtualMachineOSDisk Sample.world Sample.ManagedDiskID Sample.Get
    (Some (Sample.os_disk "not-an-id")) 0%nat
  = (Err (External "not a managed disk id"), 0%nat).
Proof.
  apply (flattenVirtualMachineOSDisk_parse_error Sample.world
           Sample.ManagedDiskID Sample.Get 0%nat (Sample.os_disk "not-an-id")
           (ManagedDiskParameters.mk "Standard_LRS" None (Some "not-an-id"))
           "not-an-id" (External "not a managed disk id")
           eq_refl eq_refl eq_refl).
Defined.

Lemma flattenVirtualMachineOSDisk_lookup_backfill_example :
  ∃ m,
    flattenVirtualMachineOSDisk Sample.world Sample.ManagedDiskID Sample.Get
      (Some (Sample.os_disk Sample.data1_id)) 0%nat
    = (Ok [VMap m], 1%nat)
    ∧ m !! "storage_account_type" = Some (VString "Standard_LRS")
    ∧ m !! "disk_size_gb" = Some (VInt 128).
Proof.
  destruct (flattenVirtualMachineOSDisk_lookup_backfill Sample.world
              Sample.ManagedDiskID Sample.Get 0%nat 1%nat
              (Sample.os_disk Sample.data1_id)
              (ManagedDiskParameters.mk "Standard_LRS" None
                 (Some Sample.data1_id))
              Sample.data1_id (ManagedDiskId.mk "rg1" "data1") Sample.data1
              (DiskProperties.mk (Some 128) None)
              eq_refl eq_refl eq_refl eq_refl eq_refl eq_refl)
    as (m & Hflat & Hsat & Hsize & _).
  exists m. split; [exact Hflat|]. split; [exact Hsat | exact Hsize].
Defined.

Lemma flattenVirtualMachineOSDisk_fields_example :
  ∃ m,
    flattenVirtualMachineOSDisk Sample.world Sample.ManagedDiskID Sample.Get
      (Some (Sample.os_disk Sample.data1_id)) 0%nat
    = (Ok [VMap m], 1%nat)
    ∧ is_Some (m !! "name") ∧ ¬ is_Some (m !! "os_type").
Proof.
  eexists. split; [reflexivity|].
  destruct (flattenVirtualMachineOSDisk_fields Sample.world
              Sample.ManagedDiskID Sample.Get 0%nat 1%nat
              (Some (Sample.os_disk Sample.data1_id)) _ eq_refl)
    as (m & [= <-] & Hkeys).
  split.
  - apply Hkeys. apply (bool_decide_unpack _). reflexivity.
  - intros Hos. apply Hkeys in Hos. revert Hos.
    apply (bool_decide_unpack _). reflexivity.
Defined.

Lemma expandDataDisk_without_identifier_example :
  ∃ dataDisk,
    expandDataDisk Sample.world Sample.ManagedDiskID Sample.Get
      (VMap Sample.empty_disk) 0%nat
    = (Ok dataDisk, 0%nat)
    ∧ DataDisk.CreateOption dataDisk = "Empty"
    ∧ DataDisk.DiskSizeGB dataDisk = Some 32.
Proof.
  assert (Hno : ∀ id, index Sample.empty_disk "managed_disk_id" = VString id
                      -> id = "").
  { intros id [= <-]. reflexivity. }
  destruct (expandDataDisk_without_identifier Sample.world
              Sample.ManagedDiskID Sample.Get 0%nat Sample.empty_disk
              eq_refl Hno)
    as (dataDisk & managedDisk & Hbody & Hco & _ & _ & Hsize).
  exists dataDisk. split; [exact Hbody|]. split; [exact Hco | exact Hsize].
Defined.

Lemma expandVirtualMachineDataDisks_parse_failure_example :
  expandVirtualMachineDataDisks Sample.world Sample.ManagedDiskID Sample.Get
    Sample.ResourceData Sample.GetOk (Sample.resource "not-an-id") 0%nat
  = (Err (Errorf "failed to parse Managed Disk ID for Data Disk %q" ["data"]),
     0%nat).
Proof.
  assert (Hid : "not-an-id" ≠ "") by discriminate.
  apply (expandVirtualMachineDataDisks_parse_failure Sample.world
           Sample.ManagedDiskID Sample.Get Sample.ResourceData Sample.GetOk
           (Sample.resource "not-an-id") 0%nat 0%nat
           [VMap Sample.empty_disk] [] [Sample.empty_data_disk]
           (Sample.existing_disk "not-an-id") "not-an-id"
           (External "not a managed disk id")
           eq_refl eq_refl eq_refl eq_refl Hid eq_refl).
Defined.

Lemma expandDataDisk_create_option_example :
  ∃ dataDisk,
    expandDataDisk Sample.world Sample.ManagedDiskID Sample.Get
      (VMap (<["create_option" := VString "Attach"]>
               (Sample.existing_disk Sample.data1_id))) 0%nat
    = (Ok dataDisk, 1%nat)
    ∧ DataDisk.CreateOption dataDisk = "Empty".
Proof.
  assert (Hid : Sample.data1_id ≠ "") by discriminate.
  assert (Hco : index (<["create_option" := VString "Attach"]>
                         (Sample.existing_disk Sample.data1_id))
                  "create_option" ≠ VString "")
    by (vm_compute; discriminate).
  assert (Hshape : dataDiskShape (<["create_option" := VString "Attach"]>
                                    (Sample.existing_disk Sample.data1_id))
                   = true) by (vm_compute; reflexivity).
  assert (Hmid : <["create_option" := VString "Attach"]>
                   (Sample.existing_disk Sample.data1_id) !! "managed_disk_id"
                 = Some (VString Sample.data1_id))
    by (vm_compute; reflexivity).
  destruct (expandDataDisk_create_option Sample.world Sample.ManagedDiskID
              Sample.Get 0%nat 1%nat
              (<["create_option" := VString "Attach"]>
                 (Sample.existing_disk Sample.data1_id))
              Sample.data1_id (ManagedDiskId.mk "rg1" "data1") Sample.data1
              Hshape Hmid Hid eq_refl eq_refl)
    as [Hall Hbuilt].
  cbv [Sample.data1 Disk.DiskProperties] in Hbuilt.
  destruct Hbuilt as [dataDisk Hbody].
  exists dataDisk. split; [exact Hbody|].
  destruct (Hall dataDisk 1%nat Hbody) as [_ Hempty]. exact (Hempty Hco).
Defined.

Lemma expandVirtualMachineDataDisks_stops_example :
  expandVirtualMachineDataDisks Sample.world Sample.ManagedDiskID Sample.Get
    Sample.ResourceData Sample.GetOk
    (<["data_disk" :=
        VList [VMap (Sample.existing_disk Sample.broken_id);
               VMap (Sample.existing_disk Sample.data1_id)]]>
       (Sample.resource Sample.data1_id))
    0%nat
  = (Err (Errorf
       "failed to retrieve Managed Disk information for Data Disk %q (resource group %q)"
       ["broken"; "rg1"]),
     1%nat).
Proof.
  assert (Hd : Sample.GetOk
                 (<["data_disk" :=
                     VList [VMap (Sample.existing_disk Sample.broken_id);
                            VMap (Sample.existing_disk Sample.data1_id)]]>
                    (Sample.resource Sample.data1_id)) "data_disk"
               = (VList ([] ++ VMap (Sample.existing_disk Sample.broken_id)
                            :: [VMap (Sample.existing_disk Sample.data1_id)]),
                  true))
    by (vm_compute; reflexivity).
  destruct (expandVirtualMachineDataDisks_stops Sample.world
              Sample.ManagedDiskID Sample.Get Sample.ResourceData Sample.GetOk
              _ 0%nat 0%nat 1%nat []
              [VMap (Sample.existing_disk Sample.data1_id)] []
              (VMap (Sample.existing_disk Sample.broken_id))
              Hd eq_refl)
    as [Herr _].
  apply Herr. vm_compute. reflexivity.
Defined.

Lemma flatten_expand_DataDisk_example :
  ∃ dataDisk,
    expandDataDisk Sample.world Sample.ManagedDiskID Sample.Get
      (VMap Sample.empty_disk) 0%nat
    = (Ok dataDisk, 0%nat)
    ∧ flattenVirtualMachineDataDisks (Some [dataDisk])
      = [VMap (list_to_map [
           ("name", VString "scratch");
           ("lun", VInt 0);
           ("caching", VString "None");
           ("storage_account_type", VString "Standard_LRS");
           ("managed_disk_id", VString "");
           ("disk_encryption_set_id", VString "");
           ("disk_size_gb", VInt 32);
           ("create_option", VCreateOption "Empty");
           ("write_accelerator_enabled", VBool false);
           ("disk_iops_read_write", VInt 0);
           ("disk_mbps_read_write", VInt 0)])].
Proof.
  assert (Hlun : - 2 ^ 31 <= 0 < 2 ^ 31) by lia.
  assert (Hsize : - 2 ^ 31 <= 32 < 2 ^ 31) by lia.
  apply (flatten_expand_DataDisk Sample.world Sample.ManagedDiskID Sample.Get
           0%nat Sample.empty_disk "scratch" "None" "Standard_LRS" "" 0 32
           false eq_refl eq_refl Hlun eq_refl eq_refl eq_refl eq_refl Hsize
           eq_refl eq_refl).
Defined.

Lemma expandDataDisk_panics_example :
  expandDataDisk Sample.world Sample.ManagedDiskID Sample.Get
    (VMap (delete "lun" Sample.empty_disk)) 0%nat
  = (Panic, 0%nat).
Proof.
  assert (Hno : ∀ id, index (delete "lun" Sample.empty_disk) "managed_disk_id"
                      = VString id -> id = "").
  { intros id [= <-]. reflexivity. }
  destruct (expandDataDisk_panics Sample.world Sample.ManagedDiskID Sample.Get
              0%nat (delete "lun" Sample.empty_disk) Hno)
    as [_ Hpanic].
  apply Hpanic. reflexivity.
Defined.

Lemma expandDataDisk_no_properties_example :
  expandDataDisk Sample.world Sample.ManagedDiskID Sample.Get_bare
    (VMap (Sample.existing_disk Sample.data1_id)) 0%nat
  = (Panic, 1%nat).
Proof.
  assert (Hid : Sample.data1_id ≠ "") by discriminate.
  apply (expandDataDisk_no_properties Sample.world Sample.ManagedDiskID
           Sample.Get_bare 0%nat 1%nat (Sample.existing_disk Sample.data1_id)
           Sample.data1_id (ManagedDiskId.mk "rg1" "data1")
           (Disk.mk (Some 200) None None)
           eq_refl eq_refl Hid eq_refl eq_refl eq_refl).
Defined.

Lemma flattenVirtualMachineOSDisk_no_properties_example :
  flattenVirtualMachineOSDisk Sample.world Sample.ManagedDiskID Sample.Get_bare
    (Some (Sample.os_disk Sample.data1_id)) 0%nat
  = (Panic, 1%nat).
Proof.
  apply (flattenVirtualMachineOSDisk_no_properties Sample.world
           Sample.ManagedDiskID Sample.Get_bare 0%nat 1%nat
           (Sample.os_disk Sample.data1_id)
           (ManagedDiskParameters.mk "Standard_LRS" None
              (Some Sample.data1_id))
           Sample.data1_id (ManagedDiskId.mk "rg1" "data1")
           (Disk.mk (Some 200) None None)
           eq_refl eq_refl eq_refl eq_refl eq_refl eq_refl).
Defined.
